(** * vk_bot.py: the listing tracker of VKAutoMonitorBot

    A shallow embedding of [VKAutoMonitorBot]: the per-user store
    ([user_data]), the dialog states ([user_states]), the message handlers
    behind [handle_message], the filter test [check_filters] and the
    polling pass [monitor_prices].

    Conventions of the embedding.
    - Python [int] is [Z]; a value that is [None] or a number is [option Z].
    - Python [str] is [string], the UTF-8 bytes of the text.
    - The two ordered dicts ([user_data], [monitored_cars]) are association
      lists in insertion order with unique keys; [user_states], whose order
      is never observed, is a [gmap].
    - [str(user_id)] and [int(user_id)] are injective on integers, so both
      dicts are keyed by the integer id.
    - A Python [float] is a binary64 number: [spec_float] of the Standard
      Library at precision 53.  True division of integers rounds the exact
      quotient to the nearest float and raises [OverflowError] beyond the
      range; see [PyFloat].
    - [send_message] is recorded as an outgoing message with a structured
      text; the keyboard attached is recorded with it.
    - [save_user_data] and the [logger] calls of the handlers write outside
      the bot's state and are left out.  Of the polling pass,
      [monitor_prices] returns what it sends and logs about the listings (a
      notification that went out or failed, an error); [pass_log] is its
      whole log, with the two lines that open and close every pass. *)

From Stdlib Require Import QArith Qabs Ascii String DecimalString.
From Stdlib Require SpecFloat.
From stdpp Require Import gmap strings list.

Open Scope string_scope.
Open Scope list_scope.
Open Scope Z_scope.

(** ** Dicts in insertion order *)

Module Dict.
Section Dict.
Context {K V : Type} `{EqDecision K}.

(** [d.get(k)] *)
Fixpoint get (k : K) (d : list (K * V)) : option V :=
  match d with
  | [] => None
  | (k', v) :: d' => if decide (k' = k) then Some v else get k d'
  end.

(** [k in d] *)
Definition mem (k : K) (d : list (K * V)) : bool :=
  match get k d with Some _ => true | None => false end.

(** [d[k] = v]: an existing key keeps its place, a new one goes last. *)
Fixpoint set (k : K) (v : V) (d : list (K * V)) : list (K * V) :=
  match d with
  | [] => [(k, v)]
  | (k', v') :: d' =>
      if decide (k' = k) then (k, v) :: d' else (k', v') :: set k v d'
  end.

Definition keys (d : list (K * V)) : list K := map fst d.
End Dict.
End Dict.

(** ** Strings *)

(** [needle in hay] *)
Fixpoint contains (needle hay : string) : bool :=
  String.prefix needle hay ||
  match hay with
  | EmptyString => false
  | String _ rest => contains needle rest
  end.

(** [s.replace(c, '')] for a one-byte [c] *)
Fixpoint remove_char (c : Ascii.ascii) (s : string) : string :=
  match s with
  | EmptyString => EmptyString
  | String a rest =>
      if Ascii.eqb a c then remove_char c rest
      else String a (remove_char c rest)
  end.

(** ** Truth values of Python objects *)

(** A number or [None]: [None] and [0] are false. *)
Definition truthy (o : option Z) : bool :=
  match o with
  | Some z => negb (z =? 0)
  | None => false
  end.

(** A string or [None]: [None] and [''] are false. *)
Definition truthy_str (o : option string) : bool :=
  match o with
  | Some s => negb (String.eqb s "")
  | None => false
  end.

(** ** Numbers and texts of Python *)

Module PyFloat.
Import SpecFloat.

Definition prec : Z := 53.
Definition emax : Z := 1024.

(** An [int] as an operand of a float operation: its exact value. *)
Definition of_int (z : Z) : spec_float :=
  match z with
  | Z0 => S754_zero false
  | Zpos p => S754_finite false p 0
  | Zneg p => S754_finite true p 0
  end.

(** [a / b] on two [int]s, for [b] other than zero: the exact quotient
    rounded to the nearest float, ties to even; [None] where Python raises
    [OverflowError]. *)
Definition true_div (a b : Z) : option spec_float :=
  match SFdiv prec emax (of_int a) (of_int b) with
  | S754_infinity _ | S754_nan => None
  | q => Some q
  end.

(** [x * 100] *)
Definition times_100 (x : spec_float) : spec_float :=
  SFmul prec emax x (of_int 100).

(** [abs(x)] *)
Definition abs (x : spec_float) : spec_float := SFabs x.

(** The value of a finite float. *)
Definition to_Q (x : spec_float) : Q :=
  match x with
  | S754_finite s m e =>
      let n := if s then Zneg m else Zpos m in
      if 0 <=? e then inject_Z (n * 2 ^ e)
      else Qmake n (2 ^ Z.to_pos (- e))
  | _ => 0%Q
  end.

(** [x >= t] for a number [t], an [int] or a [float]: Python compares the
    two values exactly. *)
Definition ge (x : spec_float) (t : Q) : bool :=
  match x with
  | S754_infinity s => negb s
  | S754_nan => false
  | _ => Qle_bool t (to_Q x)
  end.

(** [abs(x) * 10] rounded to the nearest integer, ties to even. *)
Definition tenths (x : spec_float) : N :=
  match x with
  | S754_finite _ m e =>
      let n := 10 * Zpos m in
      if 0 <=? e then Z.to_N (n * 2 ^ e)
      else
        let d := 2 ^ (- e) in
        let q := n / d in
        let r := n mod d in
        Z.to_N (if 2 * r <? d then q
                else if d <? 2 * r then q + 1
                else if Z.even q then q else q + 1)
  | _ => 0%N
  end.

Definition decimal (n : N) : string := NilZero.string_of_uint (N.to_uint n).

(** [f"{x:+.1f}"] *)
Definition format_signed_1f (x : spec_float) : string :=
  match x with
  | S754_nan => "+nan"
  | S754_infinity s => if s then "-inf" else "+inf"
  | S754_zero s => if s then "-0.0" else "+0.0"
  | S754_finite s _ _ =>
      String.concat ""
        [if s then "-" else "+"; decimal (tenths x / 10); ".";
         decimal (tenths x mod 10)]
  end.

End PyFloat.

(** The digits of a number, last digit first, with a comma after every
    third digit that has a digit after it. *)
Fixpoint commas_rev (digits_rev : list Ascii.ascii) : list Ascii.ascii :=
  match digits_rev with
  | a :: b :: c :: (_ :: _) as rest =>
      a :: b :: c :: (","%char : Ascii.ascii) :: commas_rev rest
  | _ => digits_rev
  end.

(** The digits of [abs(z)], grouped by three. *)
Definition grouped (z : Z) : string :=
  string_of_list_ascii
    (rev (commas_rev
            (rev (list_ascii_of_string (PyFloat.decimal (Z.abs_N z)))))).

(** [f"{z:,}"] *)
Definition format_commas (z : Z) : string :=
  String.append (if z <? 0 then "-" else "") (grouped z).

(** [f"{z:+,}"] *)
Definition format_signed_commas (z : Z) : string :=
  String.append (if z <? 0 then "-" else "+") (grouped z).

(** A byte inside a code point of a text in UTF-8. *)
Definition is_continuation (a : Ascii.ascii) : bool :=
  let n := Ascii.nat_of_ascii a in ((128 <=? n) && (n <? 192))%nat.

(** [len(s)]: the number of code points. *)
Fixpoint py_len (s : string) : nat :=
  match s with
  | EmptyString => 0%nat
  | String a rest =>
      if is_continuation a then py_len rest else S (py_len rest)
  end.

(** [(s[:n], s[n:])] *)
Fixpoint split_chars (n : nat) (s : string) : string * string :=
  match s with
  | EmptyString => (EmptyString, EmptyString)
  | String a rest =>
      if is_continuation a then
        let '(h, t) := split_chars n rest in (String a h, t)
      else
        match n with
        | O => (EmptyString, s)
        | S n' => let '(h, t) := split_chars n' rest in (String a h, t)
        end
  end.

(** The slices of [size] characters of [s], one after the other; [fuel]
    bounds the recursion. *)
Fixpoint chunks (fuel : nat) (size : nat) (s : string) : list string :=
  match fuel with
  | O => []
  | S fuel' =>
      match s with
      | EmptyString => []
      | _ => let '(h, t) := split_chars size s in h :: chunks fuel' size t
      end
  end.

(** [[s[i:i+size] for i in range(0, len(s), size)]]: every slice but the
    last takes [size] characters, so the length of [s] is fuel enough. *)
Definition parts_of (size : nat) (s : string) : list string :=
  chunks (String.length s) size s.

Definition nl : string := String (Ascii.ascii_of_nat 10) EmptyString.

(** ** Data model *)

(** Dialog states, [STATE_MAIN_MENU] to [STATE_DOCUMENTS]. *)
Inductive dialog_state : Type :=
  | STATE_MAIN_MENU
  | STATE_CHOOSING_CITY
  | STATE_ADDING_URL
  | STATE_SETTING_FILTERS
  | STATE_PRICE_MIN
  | STATE_PRICE_MAX
  | STATE_YEAR_MIN
  | STATE_YEAR_MAX
  | STATE_CONDITION
  | STATE_DOCUMENTS.

#[global] Instance dialog_state_eq_dec : EqDecision dialog_state.
Proof. solve_decision. Defined.

(** ['new'], ['used'], ['any'] *)
Inductive condition_value : Type := CondNew | CondUsed | CondAny.

(** ['with_docs'], ['without_docs'], ['any'] *)
Inductive documents_value : Type := DocsWith | DocsWithout | DocsAny.

(** [datetime.now()]: its [.year] and its [.isoformat()]. *)
Record datetime : Type := { dt_year : Z; isoformat : string }.

(** The dict returned by [parser.fetch_car_data]. *)
Record car_data : Type := {
  cd_title : string;
  cd_price : Z;
  cd_site : string;
  cd_year : option Z;
  cd_mileage : option Z;
  cd_location : option string
}.

(** An entry of [price_history]. *)
Record history_entry : Type := { h_price : Z; h_date : string }.

(** A value of [monitored_cars]. *)
Record car : Type := {
  title : string;
  price : Z;
  initial_price : Z;
  site : string;
  year : option Z;
  mileage : option Z;
  location : option string;
  added_date : string;
  last_check : string;
  price_history : list history_entry
}.

(** [user_data[uid]['filters']] *)
Record filters_t : Type := {
  price_min : option Z;
  price_max : option Z;
  year_min : option Z;
  year_max : option Z;
  condition : option condition_value;
  documents : option documents_value
}.

(** [user_data[uid]] *)
Record user : Type := {
  city : option string;
  monitored_cars : list (string * car);
  filters : filters_t;
  price_threshold : Q
}.

Definition no_filters : filters_t :=
  {| price_min := None; price_max := None; year_min := None;
     year_max := None; condition := None; documents := None |}.

(** The record [get_user_data] creates. *)
Definition default_user : user :=
  {| city := None; monitored_cars := []; filters := no_filters;
     price_threshold := 5%Q |}.

Definition set_price_min (v : option Z) (f : filters_t) : filters_t :=
  {| price_min := v; price_max := price_max f; year_min := year_min f;
     year_max := year_max f; condition := condition f;
     documents := documents f |}.

Definition set_price_max (v : option Z) (f : filters_t) : filters_t :=
  {| price_min := price_min f; price_max := v; year_min := year_min f;
     year_max := year_max f; condition := condition f;
     documents := documents f |}.

Definition set_year_min (v : option Z) (f : filters_t) : filters_t :=
  {| price_min := price_min f; price_max := price_max f; year_min := v;
     year_max := year_max f; condition := condition f;
     documents := documents f |}.

Definition set_year_max (v : option Z) (f : filters_t) : filters_t :=
  {| price_min := price_min f; price_max := price_max f;
     year_min := year_min f; year_max := v; condition := condition f;
     documents := documents f |}.

Definition set_condition (v : option condition_value) (f : filters_t)
  : filters_t :=
  {| price_min := price_min f; price_max := price_max f;
     year_min := year_min f; year_max := year_max f; condition := v;
     documents := documents f |}.

Definition set_documents (v : option documents_value) (f : filters_t)
  : filters_t :=
  {| price_min := price_min f; price_max := price_max f;
     year_min := year_min f; year_max := year_max f;
     condition := condition f; documents := v |}.

Definition set_city (c : option string) (u : user) : user :=
  {| city := c; monitored_cars := monitored_cars u; filters := filters u;
     price_threshold := price_threshold u |}.

Definition set_filters (f : filters_t) (u : user) : user :=
  {| city := city u; monitored_cars := monitored_cars u; filters := f;
     price_threshold := price_threshold u |}.

Definition set_monitored_cars (m : list (string * car)) (u : user) : user :=
  {| city := city u; monitored_cars := m; filters := filters u;
     price_threshold := price_threshold u |}.

(** ** check_filters *)

(** [a and b < c], for [a] a bound that may be [None] *)
Definition below_bound (x : Z) (bound : option Z) : bool :=
  match bound with
  | Some m => negb (m =? 0) && (x <? m)
  | None => false
  end.

Definition above_bound (x : Z) (bound : option Z) : bool :=
  match bound with
  | Some m => negb (m =? 0) && (x >? m)
  | None => false
  end.

Definition check_filters (cd : car_data) (f : filters_t) : bool :=
  if below_bound (cd_price cd) (price_min f) then false
  else if above_bound (cd_price cd) (price_max f) then false
  else
    match cd_year cd with
    | Some y =>
        if negb (y =? 0) then
          if below_bound y (year_min f) then false
          else if above_bound y (year_max f) then false
          else true   (* the condition and documents tests are [pass] *)
        else true
    | None => true
    end.

(** ** Messages, exceptions and the bot's state *)

Inductive keyboard : Type :=
  | NoKeyboard
  | MainMenuKeyboard
  | CityKeyboard
  | FiltersKeyboard
  | ConditionKeyboard
  | DocumentsKeyboard
  | BackKeyboard.

(** The texts the bot sends, one constructor per message of the source, with
    the values the source formats into it. *)
Inductive text : Type :=
  | Welcome (info : option (string * nat))   (* city and number of listings *)
  | ChooseCityPrompt
  | EnterCityPrompt
  | CitySet (c : string)
  | NeedCityFirst
  | SendUrlPrompt
  | BadUrl
  | AlreadyAdded
  | Fetching
  | FetchFailed
  | FilterMismatch (ttl : string) (p : Z) (y : option Z)
      (* ends with: add anyway? send the link once more *)
  | CarAdded (cd : car_data)
  | NoCars
  | CarList (message : string)   (* the list, or a part of a long one *)
  | FiltersMenu (f : filters_t)
  | PriceMinPrompt
  | PriceMaxPrompt
  | BadPriceMin
  | BadPriceMax
  | PriceFilterSet (f : filters_t)
  | YearMinPrompt
  | YearMaxPrompt
  | BadYear (from upto : Z)                  (* enter a year from .. to .. *)
  | YearFilterSet (f : filters_t)
  | ConditionPrompt
  | ConditionSet (f : filters_t)
  | DocumentsPrompt
  | DocumentsSet (f : filters_t)
  | FiltersCleared
  | Settings (u : user)
  | Help
  | PriceChanged (decrease : bool) (ttl : string) (old_price new_price : Z)
      (change : Z) (change_percent : SpecFloat.spec_float)
      (savings : option Z) (url : string).

(** A call [send_message(user_id, message, keyboard)]. *)
Record outgoing : Type := { to : Z; body : text; kb : keyboard }.

Inductive exn : Type :=
  | KeyError
  | ZeroDivisionError
  | OverflowError
  | ExternalError.      (* raised by the parser or by the VK API *)

(** What [parser.fetch_car_data(url)] does: raise, return nothing (a false
    value), or return the listing's data. *)
Inductive fetch_outcome : Type :=
  | FetchRaises
  | FetchNothing
  | Fetched (cd : car_data).

Record bot : Type := {
  user_data : list (Z * user);
  user_states : gmap Z dialog_state
}.

(** The bot of a fresh installation: no data file, no dialog. *)
Definition initial_bot : bot := {| user_data := []; user_states := ∅ |}.

Definition with_user_data (d : list (Z * user)) (b : bot) : bot :=
  {| user_data := d; user_states := user_states b |}.

(** [self.user_states[user_id] = s] *)
Definition set_state (uid : Z) (s : dialog_state) (b : bot) : bot :=
  {| user_data := user_data b; user_states := <[uid := s]> (user_states b) |}.

(** [self.user_states.get(user_id, STATE_MAIN_MENU)] *)
Definition state_of (uid : Z) (b : bot) : dialog_state :=
  default STATE_MAIN_MENU (user_states b !! uid).

(** What one call of [handle_message] leaves: the bot, the messages sent in
    order, and the exception that left the handler, if one did. *)
Record outcome : Type := {
  after : bot;
  sent : list outgoing;
  raised : option exn
}.

Definition returns (b : bot) (out : list outgoing) : outcome :=
  {| after := b; sent := out; raised := None |}.

Definition raises (e : exn) (b : bot) (out : list outgoing) : outcome :=
  {| after := b; sent := out; raised := Some e |}.

Definition send (uid : Z) (t : text) (k : keyboard) : outgoing :=
  {| to := uid; body := t; kb := k |}.

(** What the handlers read from outside during one message: the parser's
    answer for a URL, and the clock, [now k] being the [k]-th
    [datetime.now()] of the call. *)
Record env : Type := {
  fetch_car_data : string → fetch_outcome;
  now : nat → datetime
}.

(** ** Handlers *)

Definition get_user_data (uid : Z) (b : bot) : bot * user :=
  match Dict.get uid (user_data b) with
  | Some u => (b, u)
  | None =>
      (with_user_data (Dict.set uid default_user (user_data b)) b,
       default_user)
  end.

(** [user_data = self.get_user_data(uid)] followed by an assignment into
    the record obtained. *)
Definition update_user (uid : Z) (f : user → user) (b : bot) : bot :=
  let '(b1, u) := get_user_data uid b in
  with_user_data (Dict.set uid (f u) (user_data b1)) b1.

Definition handle_start (uid : Z) (b : bot) : outcome :=
  let '(b1, u) := get_user_data uid b in
  let info :=
    match city u with
    | Some c =>
        if negb (String.eqb c "")
        then Some (c, length (monitored_cars u)) else None
    | None => None
    end in
  returns (set_state uid STATE_MAIN_MENU b1)
          [send uid (Welcome info) MainMenuKeyboard].

Definition handle_choose_city (uid : Z) (b : bot) : outcome :=
  returns (set_state uid STATE_CHOOSING_CITY b)
          [send uid ChooseCityPrompt CityKeyboard].

Definition other_city_label : string := "✏️ Другой город".

Definition handle_city_selected (uid : Z) (c : string) (b : bot) : outcome :=
  if String.eqb c other_city_label then
    returns b [send uid EnterCityPrompt BackKeyboard]
  else
    returns (set_state uid STATE_MAIN_MENU
               (update_user uid (set_city (Some c)) b))
            [send uid (CitySet c) MainMenuKeyboard].

Definition handle_add_url (uid : Z) (b : bot) : outcome :=
  let '(b1, u) := get_user_data uid b in
  if negb (truthy_str (city u)) then
    returns b1 [send uid NeedCityFirst MainMenuKeyboard]
  else
    returns (set_state uid STATE_ADDING_URL b1)
            [send uid SendUrlPrompt BackKeyboard].

(** The value stored under [monitored_cars[url]]; the three dates are three
    readings of the clock, in the order of the dict display. *)
Definition new_car (e : env) (cd : car_data) : car :=
  {| title := cd_title cd;
     price := cd_price cd;
     initial_price := cd_price cd;
     site := cd_site cd;
     year := cd_year cd;
     mileage := cd_mileage cd;
     location := cd_location cd;
     added_date := isoformat (now e 0);
     last_check := isoformat (now e 1);
     price_history :=
       [{| h_price := cd_price cd; h_date := isoformat (now e 2) |}] |}.

Definition has_site_marker (url : string) : bool :=
  contains "auto.ru" url || contains "drom.ru" url.

Definition handle_url_received (e : env) (uid : Z) (url : string) (b : bot)
  : outcome :=
  if negb (has_site_marker url) then
    returns b [send uid BadUrl NoKeyboard]
  else
    match Dict.get uid (user_data b) with
    | None => raises KeyError b []
    | Some u =>
        if Dict.mem url (monitored_cars u) then
          returns (set_state uid STATE_MAIN_MENU b)
                  [send uid AlreadyAdded MainMenuKeyboard]
        else
          let wait := send uid Fetching NoKeyboard in
          match fetch_car_data e url with
          | FetchRaises => raises ExternalError b [wait]
          | FetchNothing =>
              returns b [wait; send uid FetchFailed NoKeyboard]
          | Fetched cd =>
              if negb (check_filters cd (filters u)) then
                let y := if truthy (cd_year cd) then cd_year cd else None in
                returns b
                  [wait;
                   send uid (FilterMismatch (cd_title cd) (cd_price cd) y)
                        NoKeyboard]
              else
                let cars := Dict.set url (new_car e cd) (monitored_cars u) in
                let b1 :=
                  with_user_data
                    (Dict.set uid (set_monitored_cars cars u) (user_data b))
                    b in
                returns (set_state uid STATE_MAIN_MENU b1)
                        [wait; send uid (CarAdded cd) MainMenuKeyboard]
          end
    end.

(** The lines of one listing in the list.  When the price differs from
    the initial one the percentage is computed, and
    [price_change / car['initial_price']] raises [ZeroDivisionError] for
    an initial price of zero and [OverflowError] for a quotient beyond the
    range of [float]. *)
Definition list_entry (i : nat) (url : string) (c : car) : exn + string :=
  let price_change := price c - initial_price c in
  let change_emoji :=
    if price_change <? 0 then "📉"
    else if price_change >? 0 then "📈" else "➖" in
  let first :=
    String.concat ""
      [PyFloat.decimal (N.of_nat i); ". "; title c; nl;
       "   💰 "; format_commas (price c); " ₽"] in
  let rest :=
    String.concat ""
      [nl; "   🌐 "; site c;
       match location c with
       | Some l =>
           if negb (String.eqb l "") then String.concat "" [nl; "   📍 "; l]
           else ""
       | None => ""
       end;
       nl; "   🔗 "; url; nl; nl] in
  if negb (price_change =? 0) then
    if initial_price c =? 0 then inl ZeroDivisionError
    else
      match PyFloat.true_div price_change (initial_price c) with
      | None => inl OverflowError
      | Some q =>
          inr (String.concat ""
                 [first; " "; change_emoji; " ";
                  format_signed_commas price_change; " ₽ (";
                  PyFloat.format_signed_1f (PyFloat.times_100 q); "%)";
                  rest])
      end
  else inr (String.append first rest).

(** The lines of the listings, numbered from [i]. *)
Fixpoint list_entries (i : nat) (cars : list (string * car)) : exn + string :=
  match cars with
  | [] => inr EmptyString
  | (url, c) :: rest =>
      match list_entry i url c with
      | inl err => inl err
      | inr lines =>
          match list_entries (S i) rest with
          | inl err => inl err
          | inr more => inr (String.append lines more)
          end
      end
  end.

(** The text of the list, or the exception that building it raises. *)
Definition list_message (cars : list (string * car)) : exn + string :=
  match list_entries 1 cars with
  | inl err => inl err
  | inr lines =>
      inr (String.concat "" ["📋 Ваши объявления:"; nl; nl; lines])
  end.

(** The parts of a long list: all but the last go out without keyboard. *)
Fixpoint send_parts (uid : Z) (parts : list string) : list outgoing :=
  match parts with
  | [] => []
  | [part] => [send uid (CarList part) MainMenuKeyboard]
  | part :: rest => send uid (CarList part) NoKeyboard :: send_parts uid rest
  end.

Definition handle_list_cars (uid : Z) (b : bot) : outcome :=
  let '(b1, u) := get_user_data uid b in
  match monitored_cars u with
  | [] => returns b1 [send uid NoCars MainMenuKeyboard]
  | cars =>
      match list_message cars with
      | inl err => raises err b1 []
      | inr message =>
          if (4096 <? py_len message)%nat then
            returns b1 (send_parts uid (parts_of 4000 message))
          else returns b1 [send uid (CarList message) MainMenuKeyboard]
      end
  end.

Definition handle_filters_menu (uid : Z) (b : bot) : outcome :=
  let '(b1, u) := get_user_data uid b in
  returns (set_state uid STATE_SETTING_FILTERS b1)
          [send uid (FiltersMenu (filters u)) FiltersKeyboard].

Definition handle_price_filter (uid : Z) (b : bot) : outcome :=
  returns (set_state uid STATE_PRICE_MIN b)
          [send uid PriceMinPrompt BackKeyboard].

Definition handle_year_filter (uid : Z) (b : bot) : outcome :=
  returns (set_state uid STATE_YEAR_MIN b)
          [send uid YearMinPrompt BackKeyboard].

Definition handle_condition_filter (uid : Z) (b : bot) : outcome :=
  returns (set_state uid STATE_CONDITION b)
          [send uid ConditionPrompt ConditionKeyboard].

Definition handle_documents_filter (uid : Z) (b : bot) : outcome :=
  returns (set_state uid STATE_DOCUMENTS b)
          [send uid DocumentsPrompt DocumentsKeyboard].

(** The filters of [uid] after a handler assigned into them. *)
Definition filters_of (uid : Z) (b : bot) : filters_t :=
  filters (snd (get_user_data uid b)).

(** [user_data['filters'][field] = v], then the reply [reply] built from
    the filters as they are now, and the next state. *)
Definition store_filter (uid : Z) (upd : filters_t → filters_t)
    (next : dialog_state) (reply : filters_t → text) (k : keyboard) (b : bot)
  : outcome :=
  let b1 := update_user uid (λ u, set_filters (upd (filters u)) u) b in
  returns (set_state uid next b1) [send uid (reply (filters_of uid b1)) k].

Definition positive_or_none (n : Z) : option Z :=
  if n >? 0 then Some n else None.

Definition handle_condition_selected (uid : Z) (label : string) (b : bot)
  : outcome :=
  let picked :=
    if String.eqb label "🆕 Новый" then Some CondNew
    else if String.eqb label "🔧 С пробегом" then Some CondUsed
    else if String.eqb label "🔄 Любое" then Some CondAny
    else None in
  match picked with
  | Some c =>
      store_filter uid (set_condition (Some c)) STATE_SETTING_FILTERS
                   ConditionSet FiltersKeyboard b
  | None => returns b []
  end.

Definition handle_documents_selected (uid : Z) (label : string) (b : bot)
  : outcome :=
  let picked :=
    if String.eqb label "✅ С документами" then Some DocsWith
    else if String.eqb label "❌ Без документов" then Some DocsWithout
    else if String.eqb label "🔄 Любые" then Some DocsAny
    else None in
  match picked with
  | Some d =>
      store_filter uid (set_documents (Some d)) STATE_SETTING_FILTERS
                   DocumentsSet FiltersKeyboard b
  | None => returns b []
  end.

Definition handle_clear_filters (uid : Z) (b : bot) : outcome :=
  store_filter uid (λ _, no_filters) STATE_SETTING_FILTERS
               (λ _, FiltersCleared) FiltersKeyboard b.

Definition handle_settings (uid : Z) (b : bot) : outcome :=
  let '(b1, u) := get_user_data uid b in
  returns b1 [send uid (Settings u) MainMenuKeyboard].

Definition handle_help (uid : Z) (b : bot) : outcome :=
  returns b [send uid Help MainMenuKeyboard].

Definition back_label : string := "« Назад".

(** The texts that lead to the main menu from any state. *)
Definition start_words : list string := ["начать"; "start"; "меню"].

Definition is_start_word (s : string) : bool :=
  existsb (String.eqb s) start_words.

(** The six labels of the main menu keyboard. *)
Definition main_menu_labels : list string :=
  ["🏙 Выбрать город"; "➕ Добавить объявление"; "📋 Мои объявления";
   "🔍 Фильтры"; "⚙️ Настройки"; "❓ Помощь"].

(** An incoming [MESSAGE_NEW] event. *)
Record event : Type := { user_id : Z; text_of : string }.

Section Handlers.

(** The built-ins of Python the handlers call on the user's text:
    [str.strip()], [str.lower()], and [int(s)], which is [None] where
    Python raises [ValueError]. *)
Variable py_strip : string → string.
Variable py_lower : string → string.
Variable py_int : string → option Z.

(** [int(value.replace(' ', '').replace(',', ''))] *)
Definition parse_price (value : string) : option Z :=
  py_int (remove_char "," (remove_char " " value)).

Definition handle_price_min (uid : Z) (value : string) (b : bot) : outcome :=
  match parse_price value with
  | Some p =>
      if p <? 0 then returns b [send uid BadPriceMin NoKeyboard]
      else
        store_filter uid (set_price_min (positive_or_none p))
                     STATE_PRICE_MAX (λ _, PriceMaxPrompt) BackKeyboard b
  | None => returns b [send uid BadPriceMin NoKeyboard]
  end.

Definition handle_price_max (uid : Z) (value : string) (b : bot) : outcome :=
  match parse_price value with
  | Some p =>
      if p <? 0 then returns b [send uid BadPriceMax NoKeyboard]
      else
        store_filter uid (set_price_max (positive_or_none p))
                     STATE_SETTING_FILTERS PriceFilterSet FiltersKeyboard b
  | None => returns b [send uid BadPriceMax NoKeyboard]
  end.

(** [year != 0 and (year < 1900 or year > current_year)] *)
Definition year_rejected (y current_year : Z) : bool :=
  negb (y =? 0) && ((y <? 1900) || (y >? current_year)).

(** The handler reads the clock once for [current_year]; the [except]
    branch reads it again for the year it prints. *)
Definition handle_year_min (e : env) (uid : Z) (value : string) (b : bot)
  : outcome :=
  match py_int value with
  | Some y =>
      let current_year := dt_year (now e 0) in
      if year_rejected y current_year then
        returns b [send uid (BadYear 1900 (dt_year (now e 1))) NoKeyboard]
      else
        store_filter uid (set_year_min (positive_or_none y))
                     STATE_YEAR_MAX (λ _, YearMaxPrompt) BackKeyboard b
  | None =>
      returns b [send uid (BadYear 1900 (dt_year (now e 0))) NoKeyboard]
  end.

Definition handle_year_max (e : env) (uid : Z) (value : string) (b : bot)
  : outcome :=
  match py_int value with
  | Some y =>
      let current_year := dt_year (now e 0) in
      if year_rejected y current_year then
        returns b [send uid (BadYear 1900 (dt_year (now e 1))) NoKeyboard]
      else
        store_filter uid (set_year_max (positive_or_none y))
                     STATE_SETTING_FILTERS YearFilterSet FiltersKeyboard b
  | None =>
      returns b [send uid (BadYear 1900 (dt_year (now e 0))) NoKeyboard]
  end.

(** The branch of [handle_message] under
    [state == STATE_MAIN_MENU or message.lower() in [...]]. *)
Definition main_menu_branch (uid : Z) (message : string) (b : bot)
  : outcome :=
  if String.eqb message "🏙 Выбрать город" then handle_choose_city uid b
  else if String.eqb message "➕ Добавить объявление" then
    handle_add_url uid b
  else if String.eqb message "📋 Мои объявления" then handle_list_cars uid b
  else if String.eqb message "🔍 Фильтры" then handle_filters_menu uid b
  else if String.eqb message "⚙️ Настройки" then handle_settings uid b
  else if String.eqb message "❓ Помощь" then handle_help uid b
  else handle_start uid b.

Definition filters_menu_branch (uid : Z) (message : string) (b : bot)
  : outcome :=
  if String.eqb message "💰 Цена" then handle_price_filter uid b
  else if String.eqb message "📅 Год выпуска" then handle_year_filter uid b
  else if String.eqb message "🚗 Состояние" then
    handle_condition_filter uid b
  else if String.eqb message "📄 Документы" then
    handle_documents_filter uid b
  else if String.eqb message "🗑 Сбросить фильтры" then
    handle_clear_filters uid b
  else returns b [].

(** The handler of each state below the main menu. *)
Definition state_handler (e : env) (s : dialog_state) (uid : Z)
    (message : string) (b : bot) : outcome :=
  match s with
  | STATE_MAIN_MENU => main_menu_branch uid message b
  | STATE_CHOOSING_CITY => handle_city_selected uid message b
  | STATE_ADDING_URL => handle_url_received e uid message b
  | STATE_SETTING_FILTERS => filters_menu_branch uid message b
  | STATE_PRICE_MIN => handle_price_min uid message b
  | STATE_PRICE_MAX => handle_price_max uid message b
  | STATE_YEAR_MIN => handle_year_min e uid message b
  | STATE_YEAR_MAX => handle_year_max e uid message b
  | STATE_CONDITION => handle_condition_selected uid message b
  | STATE_DOCUMENTS => handle_documents_selected uid message b
  end.

Definition handle_message (e : env) (ev : event) (b : bot) : outcome :=
  let uid := user_id ev in
  let message := py_strip (text_of ev) in
  let state := state_of uid b in
  if String.eqb message back_label then handle_start uid b
  else if bool_decide (state = STATE_MAIN_MENU)
          || is_start_word (py_lower message)
  then main_menu_branch uid message b
  else state_handler e state uid message b.

End Handlers.

(** ** The polling pass *)

Definition set_last_check (d : string) (c : car) : car :=
  {| title := title c; price := price c; initial_price := initial_price c;
     site := site c; year := year c; mileage := mileage c;
     location := location c; added_date := added_date c;
     last_check := d; price_history := price_history c |}.

(** [car['price'] = p] and [car['price_history'].append(h)] *)
Definition record_price (p : Z) (h : history_entry) (c : car) : car :=
  {| title := title c; price := p; initial_price := initial_price c;
     site := site c; year := year c; mileage := mileage c;
     location := location c; added_date := added_date c;
     last_check := last_check c; price_history := price_history c ++ [h] |}.

(** What the pass reads from outside for the listing [url] of user [uid]:
    the parser's answer, the clock ([poll_now uid url k] is the [k]-th
    reading while that listing is handled), and whether [send_message]
    raises for the notification. *)
Record poll_env : Type := {
  poll_fetch : Z → string → fetch_outcome;
  poll_now : Z → string → nat → datetime;
  send_raises : Z → string → bool
}.

(** What the pass sends, and what it logs about a listing.  The two lines
    that every pass logs at its start and at its end are in [pass_log]. *)
Inductive pass_event : Type :=
  | Notified (o : outgoing)        (* sent, then logged as sent *)
  | SendFailed (o : outgoing)      (* [send_message] raised: logged *)
  | MonitorError (url : string) (e : exn).   (* logged by the outer except *)

(** [(new_price - old_price) / old_price * 100], for [old_price] other
    than zero; [None] where the division raises [OverflowError]. *)
Definition change_percent (old_price new_price : Z)
  : option SpecFloat.spec_float :=
  PyFloat.times_100 <$> PyFloat.true_div (new_price - old_price) old_price.

(** [abs((new_price - old_price) / old_price * 100)] *)
Definition price_change_percent (old_price new_price : Z)
  : option SpecFloat.spec_float :=
  PyFloat.abs <$> change_percent old_price new_price.

Definition price_alert (url : string) (c : car) (old_price new_price : Z)
    (percent : SpecFloat.spec_float) : text :=
  PriceChanged (new_price <? old_price) (title c) old_price new_price
    (new_price - old_price) percent
    (if new_price <? old_price then Some (old_price - new_price) else None)
    url.

(** The body of the [try] for one listing: the record as it is when the
    body is left, what was sent and logged, and the exception that left the
    body, if one did. *)
Definition check_listing (e : poll_env) (uid : Z) (threshold : Q)
    (url : string) (c : car) : car * list pass_event * option exn :=
  match poll_fetch e uid url with
  | FetchRaises => (c, [], Some ExternalError)
  | FetchNothing => (c, [], None)                        (* continue *)
  | Fetched new_data =>
      let old_price := price c in
      let new_price := cd_price new_data in
      let c1 := set_last_check (isoformat (poll_now e uid url 0)) c in
      if negb (old_price =? new_price) then
        if old_price =? 0 then (c1, [], Some ZeroDivisionError)
        else
          match change_percent old_price new_price with
          | None => (c1, [], Some OverflowError)
          | Some percent =>
              if PyFloat.ge (PyFloat.abs percent) threshold then
                let h := {| h_price := new_price;
                            h_date := isoformat (poll_now e uid url 1) |} in
                let c2 := record_price new_price h c1 in
                let o := send uid
                           (price_alert url c2 old_price new_price percent)
                           NoKeyboard in
                (c2,
                 [if send_raises e uid url then SendFailed o else Notified o],
                 None)
              else (c1, [], None)
          end
      else (c1, [], None)
  end.

(** [try: ... except Exception as e: logger.error(...)] around the body. *)
Definition monitor_listing (e : poll_env) (uid : Z) (threshold : Q)
    (url : string) (c : car) : car * list pass_event * option exn :=
  match check_listing e uid threshold url c with
  | (c', evs, Some err) => (c', evs ++ [MonitorError url err], None)
  | r => r
  end.

(** A [for k, v in d.items()] loop whose body mutates [v] in place: an
    exception that leaves the body leaves the loop, with the items before
    it processed and the items after it untouched. *)
Fixpoint for_items {K V : Type}
    (body : K → V → V * list pass_event * option exn) (items : list (K * V))
  : list (K * V) * list pass_event * option exn :=
  match items with
  | [] => ([], [], None)
  | (k, v) :: rest =>
      match body k v with
      | (v', evs, Some err) => ((k, v') :: rest, evs, Some err)
      | (v', evs, None) =>
          let '(rest', evs', r) := for_items body rest in
          ((k, v') :: rest', evs ++ evs', r)
      end
  end.

(** The body of the loop over the users. *)
Definition monitor_user (e : poll_env) (uid : Z) (data : user)
  : user * list pass_event * option exn :=
  match monitored_cars data with
  | [] => (data, [], None)                               (* continue *)
  | cars =>
      let '(cars', evs, r) :=
        for_items (monitor_listing e uid (price_threshold data)) cars in
      (set_monitored_cars cars' data, evs, r)
  end.

(** The two loops of the pass: the store after them, what was sent and
    logged about the listings, and the exception that left the loops, if
    one did. *)
Definition monitor_prices (e : poll_env) (b : bot)
  : bot * list pass_event * option exn :=
  let '(d, evs, r) := for_items (monitor_user e) (user_data b) in
  (with_user_data d b, evs, r).

(** A line of the log of a pass. *)
Inductive log_line : Type :=
  | PassStarted                    (* [logger.info], before the loops *)
  | About (ev : pass_event)        (* a line about a listing *)
  | PassFinished.                  (* [logger.info], after the loops *)

(** The log of a pass, from the first line of [monitor_prices] to its
    last: the closing line is written when no exception left the loops. *)
Definition pass_log (e : poll_env) (b : bot) : list log_line :=
  PassStarted :: map About (monitor_prices e b).1.2
  ++ match (monitor_prices e b).2 with
     | None => [PassFinished]
     | Some _ => []
     end.


(** ** Runs of the bot *)

(** The listing [url] of user [uid] is tracked with record [c]. *)
Definition tracked (b : bot) (uid : Z) (url : string) (c : car) : Prop :=
  ∃ u, Dict.get uid (user_data b) = Some u
       ∧ Dict.get url (monitored_cars u) = Some c.

(** The user [uid] has no listing under [url]. *)
Definition untracked (b : bot) (uid : Z) (url : string) : Prop :=
  ∀ c, ¬ tracked b uid url c.

(** The last entry of the price history carries the current price. *)
Definition history_matches_price (c : car) : Prop :=
  ∃ h, last (price_history c) = Some h ∧ h_price h = price c.

(** The percent delta in the words of the specification,
    [|new - old| / old * 100]. *)
Definition spec_percent_delta (old new : Z) : Q :=
  Qabs (inject_Z (new - old)) / inject_Z old * 100.

Section Runs.

Variable py_strip : string → string.
Variable py_lower : string → string.
Variable py_int : string → option Z.

(** One operation of the running bot: a message is handled (whether or not
    an exception leaves the handler, [run] logs it and goes on), or the
    monitoring thread makes a pass. *)
Inductive step : bot → bot → Prop :=
  | step_message (e : env) (ev : event) (b : bot) :
      step b (after (handle_message py_strip py_lower py_int e ev b))
  | step_poll (e : poll_env) (b : bot) :
      step b (monitor_prices e b).1.1.

Inductive reachable : bot → Prop :=
  | reach_init : reachable initial_bot
  | reach_step (b b' : bot) : reachable b → step b b' → reachable b'.

(** A message that is neither the Back label nor a start word: in a state
    other than the main menu it goes to the handler of the state. *)
Definition plain_message (message : string) : Prop :=
  message ≠ back_label ∧ is_start_word (py_lower message) = false.

(** Every tracked URL was once dispatched to [handle_url_received] and
    accepted there. *)
Definition urls_accepted (b : bot) : Prop :=
  ∀ uid u url,
    Dict.get uid (user_data b) = Some u →
    Dict.mem url (monitored_cars u) = true →
    has_site_marker url = true ∧ is_start_word (py_lower url) = false.

End Runs.

(** ** The pass, listing by listing *)

(** The listings of [uid]: [monitored_cars] of the record, none when the
    user has no record. *)
Definition cars_of (uid : Z) (b : bot) : list (string * car) :=
  match Dict.get uid (user_data b) with
  | Some u => monitored_cars u
  | None => []
  end.

(** The record one listing is left with by its turn in the pass. *)
Definition listing_after (e : poll_env) (uid : Z) (threshold : Q)
    (url : string) (c : car) : car :=
  (monitor_listing e uid threshold url c).1.1.

(** What the turn of one listing sends and logs. *)
Definition listing_log (e : poll_env) (uid : Z) (threshold : Q)
    (url : string) (c : car) : list pass_event :=
  (monitor_listing e uid threshold url c).1.2.

(** The record of a user with every listing after its turn. *)
Definition user_after (e : poll_env) (uid : Z) (data : user) : user :=
  set_monitored_cars
    (map (λ kc, (kc.1, listing_after e uid (price_threshold data) kc.1 kc.2))
         (monitored_cars data))
    data.

Definition user_log (e : poll_env) (uid : Z) (data : user)
  : list pass_event :=
  concat (map (λ kc, listing_log e uid (price_threshold data) kc.1 kc.2)
              (monitored_cars data)).

(** A handler that leaves every user's listings as they were. *)
Definition same_cars (b b' : bot) : Prop :=
  ∀ uid, cars_of uid b' = cars_of uid b.

(** The notification threshold the pass uses for the listings of [uid]. *)
Definition threshold_of (uid : Z) (b : bot) : Q :=
  match Dict.get uid (user_data b) with
  | Some u => price_threshold u
  | None => 5%Q
  end.

(** ** Executable instances of the built-ins

    [str.strip], [str.lower] and [int] on the texts of the examples below:
    white space of ASCII, the letters of the Latin and Cyrillic alphabets in
    UTF-8, and decimal numerals with an optional sign. *)

Module PyModel.

Definition is_space (a : Ascii.ascii) : bool :=
  let n := Ascii.nat_of_ascii a in
  ((9 <=? n) && (n <=? 13) || (n =? 32))%nat.

Fixpoint lstrip (s : string) : string :=
  match s with
  | String a rest => if is_space a then lstrip rest else s
  | EmptyString => EmptyString
  end.

Fixpoint rstrip (s : string) : string :=
  match s with
  | String a rest =>
      match rstrip rest with
      | EmptyString => if is_space a then EmptyString else String a EmptyString
      | r => String a r
      end
  | EmptyString => EmptyString
  end.

Definition strip (s : string) : string := rstrip (lstrip s).

Definition byte (n : nat) : Ascii.ascii := Ascii.ascii_of_nat n.

(** Lower case of [A-Z] and of U+0400 to U+042F (bytes D0 80 to D0 AF). *)
Fixpoint lower (s : string) : string :=
  match s with
  | EmptyString => EmptyString
  | String a rest =>
      let n := Ascii.nat_of_ascii a in
      if ((65 <=? n) && (n <=? 90))%nat then String (byte (n + 32)) (lower rest)
      else if (n =? 208)%nat then
        match rest with
        | String x rest' =>
            let m := Ascii.nat_of_ascii x in
            if ((128 <=? m) && (m <=? 143))%nat then
              String (byte 209) (String (byte (m + 16)) (lower rest'))
            else if ((144 <=? m) && (m <=? 159))%nat then
              String a (String (byte (m + 32)) (lower rest'))
            else if ((160 <=? m) && (m <=? 175))%nat then
              String (byte 209) (String (byte (m - 32)) (lower rest'))
            else String a (String x (lower rest'))
        | EmptyString => String a EmptyString
        end
      else String a (lower rest)
  end.

Fixpoint digits (acc : Z) (s : string) : option Z :=
  match s with
  | EmptyString => Some acc
  | String a rest =>
      let n := Z.of_nat (Ascii.nat_of_ascii a) in
      if (48 <=? n) && (n <=? 57) then digits (acc * 10 + (n - 48)) rest
      else None
  end.

Definition int (s : string) : option Z :=
  match s with
  | EmptyString => None
  | String "-" (String _ _ as r) => option_map Z.opp (digits 0 r)
  | String "+" (String _ _ as r) => digits 0 r
  | String "-" EmptyString | String "+" EmptyString => None
  | _ => digits 0 s
  end.

Definition handle (e : env) (ev : event) (b : bot) : outcome :=
  handle_message strip lower int e ev b.

End PyModel.
(** ** A dialog to evaluate the handlers on *)

Module Scenario.

Definition clock (k : nat) : datetime :=
  {| dt_year := 2024; isoformat := "2024-05-01T12:00:00" |}.

Definition later (k : nat) : datetime :=
  {| dt_year := 2024; isoformat := "2024-05-01T12:30:00" |}.

Definition kia_url : string :=
  "https://auto.ru/cars/used/sale/kia/rio/1234567890/".

Definition kia (p : Z) : car_data :=
  {| cd_title := "Kia Rio"; cd_price := p; cd_site := "auto.ru";
     cd_year := Some 2018; cd_mileage := Some 60000;
     cd_location := Some "Москва" |}.

(** The parser answers with [cd] for every URL. *)
Definition world (cd : car_data) : env :=
  {| fetch_car_data := λ _, Fetched cd; now := clock |}.

Definition offline : env :=
  {| fetch_car_data := λ _, FetchNothing; now := clock |}.

Definition say (t : string) : event := {| user_id := 1; text_of := t |}.

(** User 1 sends the texts one after the other. *)
Definition dialog (e : env) (texts : list string) (b : bot) : bot :=
  fold_left (λ b t, after (PyModel.handle e (say t) b)) texts b.

Definition with_city : bot :=
  dialog offline ["🏙 Выбрать город"; "Москва"] initial_bot.

Definition adding_url : bot :=
  dialog offline ["➕ Добавить объявление"] with_city.

(** The listing is tracked at the price [p]; the user is adding again. *)
Definition tracking (p : Z) : bot :=
  dialog (world (kia p)) [kia_url; "➕ Добавить объявление"] adding_url.

(** The user set an upper price bound of 500000 and is adding a URL. *)
Definition adding_with_price_max : bot :=
  dialog offline
    ["🔍 Фильтры"; "💰 Цена"; "0"; "500 000"; "« Назад";
     "➕ Добавить объявление"]
    with_city.

Definition in_filters_menu : bot := dialog offline ["🔍 Фильтры"] with_city.

Definition awaiting_price_max : bot :=
  dialog offline ["💰 Цена"; "300000"] in_filters_menu.

Definition awaiting_year_min : bot :=
  dialog offline ["📅 Год выпуска"] in_filters_menu.

Definition awaiting_year_max : bot :=
  dialog offline ["2010"] awaiting_year_min.

(** The record under which the listing is tracked at the price [p]. *)
Definition kia_car (p : Z) : car := new_car (world (kia p)) (kia p).

(** A pass in which the parser answers with [cd] and sending works. *)
Definition poll (cd : car_data) : poll_env :=
  {| poll_fetch := λ _ _, Fetched cd;
     poll_now := λ _ _, later;
     send_raises := λ _ _, false |}.

End Scenario.

(** ** Notions for the properties of the handlers and of the pass *)

(** [user_data[uid]] as [get_user_data] returns it: the record stored, or
    the default one for a user without a record. *)
Definition record_of (uid : Z) (b : bot) : user := (get_user_data uid b).2.

(** [condition_map.get(condition_text)] of [handle_condition_selected]. *)
Definition condition_of_label (label : string) : option condition_value :=
  if String.eqb label "🆕 Новый" then Some CondNew
  else if String.eqb label "🔧 С пробегом" then Some CondUsed
  else if String.eqb label "🔄 Любое" then Some CondAny
  else None.

(** [docs_map.get(docs_text)] of [handle_documents_selected]. *)
Definition documents_of_label (label : string) : option documents_value :=
  if String.eqb label "✅ С документами" then Some DocsWith
  else if String.eqb label "❌ Без документов" then Some DocsWithout
  else if String.eqb label "🔄 Любые" then Some DocsAny
  else None.

Definition add_url_label : string := "➕ Добавить объявление".

Definition list_cars_label : string := "📋 Мои объявления".

(** A call of [send_message] in the pass, whether or not it got through. *)
Definition is_notification (ev : pass_event) : bool :=
  match ev with
  | Notified _ | SendFailed _ => true
  | MonitorError _ _ => false
  end.

(** The number of listings of all users. *)
Definition listings_total (b : bot) : nat :=
  list_sum (map (λ kv, length (monitored_cars kv.2)) (user_data b)).

(** What a handler may do to the bot on behalf of [uid]: assign into the
    record of [uid] with [f], and set the dialog state of [uid] to [s]. *)
Definition touch (uid : Z) (f : option (user → user))
    (s : option dialog_state) (b : bot) : bot :=
  let b1 := match f with Some g => update_user uid g b | None => b end in
  match s with Some s' => set_state uid s' b1 | None => b1 end.

(** A bound on the price as the handlers store it. *)
Definition price_bound_ok (o : option Z) : Prop := ∀ m, o = Some m → 0 < m.

(** A bound on the year as the handlers store it. *)
Definition year_bound_ok (o : option Z) : Prop := ∀ m, o = Some m → 1900 ≤ m.

Definition bounds_ok (f : filters_t) : Prop :=
  price_bound_ok (price_min f) ∧ price_bound_ok (price_max f)
  ∧ year_bound_ok (year_min f) ∧ year_bound_ok (year_max f).

(** An assignment into a user's record that leaves the threshold alone and
    keeps the stored bounds in their domains. *)
Definition edit (g : user → user) : Prop :=
  ∀ u, price_threshold (g u) = price_threshold u
       ∧ (bounds_ok (filters u) → bounds_ok (filters (g u))).

(** What a handler called for [uid] leaves of the bot [b]: an edit of the
    record of [uid] and a dialog state for [uid], nothing else.  The city
    changes only on the way to the main menu; the state
    [STATE_ADDING_URL] is entered only with a record that has a city. *)
Definition footprint (uid : Z) (b b' : bot) : Prop :=
  ∃ f s,
    b' = touch uid f s b
    ∧ (∀ g, f = Some g →
         edit g ∧ ((∀ u, city (g u) = city u) ∨ s = Some STATE_MAIN_MENU))
    ∧ (s = Some STATE_ADDING_URL →
       is_Some f ∧ truthy_str (city (record_of uid b)) = true).

(** A record of a listing as the code keeps it: the first entry of the
    history carries the initial price, and a listing that started at the
    price zero is still at zero. *)
Definition listing_ok (c : car) : Prop :=
  (∃ h, head (price_history c) = Some h ∧ h_price h = initial_price c)
  ∧ (initial_price c = 0 → price c = 0).

(** The records as the code keeps them: the threshold is the one of
    [get_user_data], the bounds are in their domains. *)
Definition records_ok (b : bot) : Prop :=
  ∀ uid u, Dict.get uid (user_data b) = Some u →
    price_threshold u = 5%Q ∧ bounds_ok (filters u).

(** Who is adding a URL has a record with a city. *)
Definition adding_ok (b : bot) : Prop :=
  ∀ uid, state_of uid b = STATE_ADDING_URL →
    ∃ u, Dict.get uid (user_data b) = Some u ∧ truthy_str (city u) = true.

Definition listings_ok (b : bot) : Prop :=
  ∀ uid url c, tracked b uid url c → listing_ok c.

(** No user has a URL twice among the listings: the association lists
    stand for dicts. *)
Definition urls_unique (b : bot) : Prop :=
  ∀ uid, NoDup (Dict.keys (cars_of uid b)).


(** ** More of the dialog *)

Module Scenario2.
Import Scenario.

(** The parser raises for every URL. *)
Definition broken : env :=
  {| fetch_car_data := λ _, FetchRaises; now := clock |}.



(** The lower price bound is 300000, the upper one 100000. *)
Definition inverted_range : bot :=
  dialog offline ["100000"] awaiting_price_max.

(** The listing is tracked and the user is back at the main menu. *)
Definition at_menu_with_listing : bot :=
  dialog offline ["« Назад"] (tracking 1000000).

(** The record of user 1 while the listing is tracked. *)
Definition tracking_record : user :=
  {| city := Some "Москва";
     monitored_cars := [(kia_url, kia_car 1000000)];
     filters := no_filters; price_threshold := 5 |}.

(** A listing added at the price 1 was repriced by two passes, to
    [10 ^ 300] and then to [10 ^ 600]; the user is at the main menu. *)
Definition repriced_beyond_float : bot :=
  (monitor_prices (poll (kia (10 ^ 600)))
     (monitor_prices (poll (kia (10 ^ 300)))
        (dialog (world (kia 1)) [kia_url] adding_url)).1.1).1.1.

(** A listing whose title has 4500 characters. *)
Definition limousine : car_data :=
  {| cd_title := string_of_list_ascii (repeat ("a"%char : Ascii.ascii) 4500);
     cd_price := 1000000; cd_site := "auto.ru"; cd_year := None;
     cd_mileage := None; cd_location := None |}.

(** That listing is tracked and the user is at the main menu. *)
Definition at_menu_with_long_listing : bot :=
  dialog (world limousine) [kia_url] adding_url.

End Scenario2.



(** * Properties *)

(** ** Dicts *)

Section DictFacts.
Context {K V : Type} `{EqDecision K}.
Implicit Types (k : K) (v : V) (d : list (K * V)).

Lemma dict_get_set_eq k v d : Dict.get k (Dict.set k v d) = Some v.
Proof.
  induction d as [|[k' v'] d IH]; simpl.
  - by rewrite decide_True.
  - destruct (decide (k' = k)) as [->|Hne]; simpl.
    + by rewrite decide_True.
    + by rewrite decide_False.
Qed.

Lemma dict_get_set_ne k k' v d :
  k' ≠ k → Dict.get k' (Dict.set k v d) = Dict.get k' d.
Proof.
  intros Hne. induction d as [|[k0 v0] d IH]; simpl.
  - rewrite decide_False; [done|]. congruence.
  - destruct (decide (k0 = k)) as [->|Hk0]; simpl.
    + rewrite !decide_False; [done| |]; congruence.
    + destruct (decide (k0 = k')); [done|]. exact IH.
Qed.

Lemma dict_set_overwrite k v v0 d :
  Dict.get k d = Some v0 → Dict.keys (Dict.set k v d) = Dict.keys d.
Proof.
  induction d as [|[k' v'] d IH]; simpl; [done|].
  destruct (decide (k' = k)) as [->|]; simpl; [done|].
  intros H. by rewrite IH.
Qed.

Lemma dict_set_fresh k v d :
  Dict.get k d = None → Dict.set k v d = d ++ [(k, v)].
Proof.
  induction d as [|[k' v'] d IH]; simpl; [done|].
  destruct (decide (k' = k)); [done|]. intros H. by rewrite IH.
Qed.

End DictFacts.

(** ** The filter test *)

Lemma below_bound_true x bound :
  below_bound x bound = true ↔ ∃ m, bound = Some m ∧ m ≠ 0 ∧ x < m.
Proof.
  destruct bound as [m|]; simpl.
  - rewrite andb_true_iff, negb_true_iff, Z.eqb_neq, Z.ltb_lt.
    split; [intros []; eauto|intros (? & [= <-] & ? & ?); done].
  - split; [done|intros (? & ? & _); done].
Qed.

Lemma above_bound_true x bound :
  above_bound x bound = true ↔ ∃ m, bound = Some m ∧ m ≠ 0 ∧ m < x.
Proof.
  destruct bound as [m|]; simpl.
  - rewrite andb_true_iff, negb_true_iff, Z.eqb_neq, Z.gtb_ltb, Z.ltb_lt.
    split; [intros []; eauto|intros (? & [= <-] & ? & ?); done].
  - split; [done|intros (? & ? & _); done].
Qed.

Lemma below_bound_equal m : below_bound m (Some m) = false.
Proof. simpl. rewrite Z.ltb_irrefl. apply andb_false_r. Qed.

(** C5. [check_filters] answers [False] exactly when a set lower price
    bound is above the price, a set upper price bound is below it, or the
    listing has a year and a set year bound is violated in the same way (a
    bound is set, and a year is there, when it holds a number other than
    zero, the value the handlers store as [None]).  A price equal to the
    lower bound passes that rule; without a year the year bounds do not
    count; the condition and documents settings never count. *)
Theorem check_filters_rules (cd : car_data) (f : filters_t) :
  (check_filters cd f = false ↔
     (∃ m, price_min f = Some m ∧ m ≠ 0 ∧ cd_price cd < m)
     ∨ (∃ m, price_max f = Some m ∧ m ≠ 0 ∧ m < cd_price cd)
     ∨ (∃ y, cd_year cd = Some y ∧ y ≠ 0
             ∧ ((∃ m, year_min f = Some m ∧ m ≠ 0 ∧ y < m)
                ∨ (∃ m, year_max f = Some m ∧ m ≠ 0 ∧ m < y))))
  ∧ (price_min f = Some (cd_price cd) →
     check_filters cd f = check_filters cd (set_price_min None f))
  ∧ (truthy (cd_year cd) = false →
     check_filters cd f
     = check_filters cd (set_year_min None (set_year_max None f)))
  ∧ (∀ c d, check_filters cd (set_condition c (set_documents d f))
            = check_filters cd f).
Proof.
  split; [|split; [|split]].
  - unfold check_filters.
    destruct (below_bound (cd_price cd) (price_min f)) eqn:Hpmin.
    { split; [|done]. intros _. left. by apply below_bound_true. }
    destruct (above_bound (cd_price cd) (price_max f)) eqn:Hpmax.
    { split; [|done]. intros _. right; left. by apply above_bound_true. }
    assert (Hno_price :
      ¬ ((∃ m, price_min f = Some m ∧ m ≠ 0 ∧ cd_price cd < m)
         ∨ (∃ m, price_max f = Some m ∧ m ≠ 0 ∧ m < cd_price cd))).
    { intros [H|H].
      - apply below_bound_true in H. congruence.
      - apply above_bound_true in H. congruence. }
    destruct (cd_year cd) as [y|] eqn:Hy.
    2:{ split; [done|]. intros [H|[H|(y & ? & _)]]; [tauto|tauto|done]. }
    destruct (Z.eqb_spec y 0) as [->|Hy0]; simpl.
    { split; [done|]. intros [H|[H|(y & [= <-] & ? & _)]]; tauto. }
    destruct (below_bound y (year_min f)) eqn:Hymin.
    { split; [|done]. intros _. right; right. exists y.
      split; [done|]. split; [done|]. left. by apply below_bound_true. }
    destruct (above_bound y (year_max f)) eqn:Hymax.
    { split; [|done]. intros _. right; right. exists y.
      split; [done|]. split; [done|]. right. by apply above_bound_true. }
    split; [done|].
    intros [H|[H|(y' & [= <-] & _ & [H|H])]]; [tauto|tauto| |].
    + apply below_bound_true in H. congruence.
    + apply above_bound_true in H. congruence.
  - intros Hmin. unfold check_filters. simpl.
    by rewrite Hmin, below_bound_equal.
  - unfold check_filters, truthy. simpl.
    destruct (cd_year cd) as [y|]; [|done].
    intros Hy. by rewrite Hy.
  - done.
Qed.

(** ** The poll update of one listing *)

(** C1, as the code has it.  When the fresh price differs from the
    current one, the current one is not zero, and the percentage as the
    code computes it in floating point,
    [abs((new - old) / old * 100)], reaches the user's threshold, the poll
    update of the listing sets the price to the new one, appends an entry
    with the new price to the history, and hands one notification to
    [send_message], with the old and new price, the change, its percentage
    and the direction; for a decrease the notification carries the savings
    [old - new]. *)
Theorem price_change_recorded_and_notified
    (e : poll_env) (uid : Z) (threshold : Q) (url : string) (c : car)
    (new_data : car_data) (percent : SpecFloat.spec_float) :
  poll_fetch e uid url = Fetched new_data →
  cd_price new_data ≠ price c →
  price c ≠ 0 →
  change_percent (price c) (cd_price new_data) = Some percent →
  PyFloat.ge (PyFloat.abs percent) threshold = true →
  ∃ c' o,
    monitor_listing e uid threshold url c
    = (c', [if send_raises e uid url then SendFailed o else Notified o], None)
    ∧ price c' = cd_price new_data
    ∧ price_history c'
      = price_history c
        ++ [{| h_price := cd_price new_data;
               h_date := isoformat (poll_now e uid url 1) |}]
    ∧ to o = uid
    ∧ body o
      = PriceChanged (cd_price new_data <? price c) (title c)
          (price c) (cd_price new_data) (cd_price new_data - price c)
          percent
          (if cd_price new_data <? price c
           then Some (price c - cd_price new_data) else None)
          url
    ∧ (cd_price new_data < price c →
       ∃ t p0 p1 ch pc, body o
         = PriceChanged true t p0 p1 ch pc
             (Some (price c - cd_price new_data)) url).
Proof.
  intros Hfetch Hne Hold Hpercent Hthr.
  unfold monitor_listing, check_listing. rewrite Hfetch.
  destruct (Z.eqb_spec (price c) (cd_price new_data)) as [Heq|_];
    [congruence|]. simpl negb. cbv iota.
  destruct (Z.eqb_spec (price c) 0) as [|_]; [done|].
  rewrite Hpercent, Hthr. eexists _, _. split; [reflexivity|]. simpl.
  split_and!; try reflexivity.
  intros Hlt. apply Z.ltb_lt in Hlt. unfold price_alert. rewrite Hlt.
  eauto 10.
Qed.

(** C2, as the code has it.  When the fresh price equals the current one,
    or differs from it by a percentage that, as the code computes it in
    floating point, is below the user's threshold, the poll update only
    sets [last_check]: price and history stay, nothing is sent. *)
Theorem small_change_absorbed
    (e : poll_env) (uid : Z) (threshold : Q) (url : string) (c : car)
    (new_data : car_data) :
  poll_fetch e uid url = Fetched new_data →
  cd_price new_data = price c
  ∨ (price c ≠ 0
     ∧ ∃ percent,
         change_percent (price c) (cd_price new_data) = Some percent
         ∧ PyFloat.ge (PyFloat.abs percent) threshold = false) →
  ∃ c',
    monitor_listing e uid threshold url c = (c', [], None)
    ∧ c' = set_last_check (isoformat (poll_now e uid url 0)) c
    ∧ price c' = price c
    ∧ price_history c' = price_history c
    ∧ last_check c' = isoformat (poll_now e uid url 0).
Proof.
  intros Hfetch Hsmall.
  exists (set_last_check (isoformat (poll_now e uid url 0)) c).
  split; [|done].
  unfold monitor_listing, check_listing. rewrite Hfetch.
  destruct (Z.eqb_spec (price c) (cd_price new_data)) as [Heq|Hne]; [done|].
  destruct Hsmall as [Heq|(Hold & percent & Hpercent & Hlt)]; [congruence|].
  simpl negb. cbv iota.
  destruct (Z.eqb_spec (price c) 0) as [|_]; [done|].
  by rewrite Hpercent, Hlt.
Qed.

(** ** The polling pass *)

(** A loop whose body never lets an exception out runs to the end: every
    item is replaced by what the body made of it. *)
Lemma for_items_total {K V : Type}
    (body : K → V → V * list pass_event * option exn) (items : list (K * V)) :
  (∀ k v, (body k v).2 = None) →
  for_items body items
  = (map (λ kv, (kv.1, (body kv.1 kv.2).1.1)) items,
     concat (map (λ kv, (body kv.1 kv.2).1.2) items),
     None).
Proof.
  intros Hbody. induction items as [|[k v] items IH]; simpl; [done|].
  specialize (Hbody k v).
  destruct (body k v) as [[v' evs] r]. simpl in *. subst r.
  by rewrite IH.
Qed.

Lemma monitor_listing_catches e uid threshold url c :
  (monitor_listing e uid threshold url c).2 = None.
Proof.
  unfold monitor_listing.
  by destruct (check_listing e uid threshold url c) as [[c' evs] [err|]].
Qed.

Lemma monitor_user_total e uid data :
  monitor_user e uid data = (user_after e uid data, user_log e uid data, None).
Proof.
  unfold monitor_user, user_after, user_log.
  destruct (monitored_cars data) as [|kc cars] eqn:Hcars.
  - destruct data. simpl in *. by subst.
  - rewrite for_items_total by (intros; apply monitor_listing_catches).
    done.
Qed.

Lemma monitor_prices_total e b :
  monitor_prices e b
  = (with_user_data
       (map (λ kv, (kv.1, user_after e kv.1 kv.2)) (user_data b)) b,
     concat (map (λ kv, user_log e kv.1 kv.2) (user_data b)),
     None).
Proof.
  unfold monitor_prices.
  rewrite for_items_total; [|by intros; rewrite monitor_user_total].
  f_equal. f_equal.
  - f_equal. apply map_ext. intros [uid u]. simpl.
    by rewrite monitor_user_total.
  - f_equal. apply map_ext. intros [uid u]. simpl.
    by rewrite monitor_user_total.
Qed.



(** ** What the handlers do to the listings *)

Lemma dict_get_map_values {K V : Type} `{EqDecision K}
    (f : K → V → V) (k : K) (d : list (K * V)) :
  Dict.get k (map (λ kv, (kv.1, f kv.1 kv.2)) d) = f k <$> Dict.get k d.
Proof.
  induction d as [|[k' v'] d IH]; simpl; [done|].
  destruct (decide (k' = k)) as [->|]; [done|]. exact IH.
Qed.

Lemma tracked_cars_of b uid url c :
  tracked b uid url c ↔ Dict.get url (cars_of uid b) = Some c.
Proof.
  unfold tracked, cars_of. split.
  - intros (u & -> & Hc). done.
  - destruct (Dict.get uid (user_data b)) as [u|]; [eauto|done].
Qed.

Lemma cars_of_set_state uid' uid s b :
  cars_of uid' (set_state uid s b) = cars_of uid' b.
Proof. done. Qed.

Lemma cars_of_get_user_data uid' uid b b1 u :
  get_user_data uid b = (b1, u) →
  cars_of uid' b1 = cars_of uid' b ∧ monitored_cars u = cars_of uid b.
Proof.
  unfold get_user_data, cars_of.
  destruct (Dict.get uid (user_data b)) as [u0|] eqn:Hget.
  - by intros [= <- <-].
  - intros [= <- <-]. simpl. split; [|done].
    destruct (decide (uid' = uid)) as [->|Hne].
    + by rewrite dict_get_set_eq, Hget.
    + by rewrite dict_get_set_ne.
Qed.

Lemma cars_of_update_user uid' uid f b :
  (∀ u, monitored_cars (f u) = monitored_cars u) →
  cars_of uid' (update_user uid f b) = cars_of uid' b.
Proof.
  intros Hf. unfold update_user.
  destruct (get_user_data uid b) as [b1 u] eqn:Hg.
  destruct (cars_of_get_user_data uid' uid b b1 u Hg) as [H1 H2].
  destruct (cars_of_get_user_data uid uid b b1 u Hg) as [H3 _].
  unfold cars_of in *. simpl.
  destruct (decide (uid' = uid)) as [->|Hne].
  - rewrite dict_get_set_eq, Hf. done.
  - by rewrite dict_get_set_ne.
Qed.

Lemma same_cars_get_user_data uid b b1 u s :
  get_user_data uid b = (b1, u) →
  same_cars b b1 ∧ same_cars b (set_state uid s b1).
Proof.
  intros Hg. split; intros uid'; rewrite ?cars_of_set_state;
    by destruct (cars_of_get_user_data uid' uid b b1 u Hg).
Qed.

Lemma same_cars_store_filter uid upd next reply k b :
  same_cars b (after (store_filter uid upd next reply k b)).
Proof.
  intros uid'. unfold store_filter. simpl.
  by rewrite cars_of_set_state, cars_of_update_user.
Qed.

Lemma same_cars_handle_start uid b : same_cars b (after (handle_start uid b)).
Proof.
  unfold handle_start. destruct (get_user_data uid b) as [b1 u] eqn:Hg.
  simpl. by eapply same_cars_get_user_data.
Qed.

Lemma same_cars_handle_add_url uid b :
  same_cars b (after (handle_add_url uid b)).
Proof.
  unfold handle_add_url. destruct (get_user_data uid b) as [b1 u] eqn:Hg.
  destruct (negb _); simpl;
    by eapply (same_cars_get_user_data _ _ _ _ STATE_MAIN_MENU).
Qed.

Lemma same_cars_handle_list_cars uid b :
  same_cars b (after (handle_list_cars uid b)).
Proof.
  unfold handle_list_cars. destruct (get_user_data uid b) as [b1 u] eqn:Hg.
  destruct (same_cars_get_user_data uid b b1 u STATE_MAIN_MENU Hg) as [H _].
  destruct (monitored_cars u); [done|].
  destruct (list_message _); [done|]. by destruct (_ <? _)%nat.
Qed.

Lemma same_cars_handle_filters_menu uid b :
  same_cars b (after (handle_filters_menu uid b)).
Proof.
  unfold handle_filters_menu. destruct (get_user_data uid b) as [b1 u] eqn:Hg.
  simpl. by eapply same_cars_get_user_data.
Qed.

Lemma same_cars_handle_settings uid b :
  same_cars b (after (handle_settings uid b)).
Proof.
  unfold handle_settings. destruct (get_user_data uid b) as [b1 u] eqn:Hg.
  simpl. by eapply (same_cars_get_user_data _ _ _ _ STATE_MAIN_MENU).
Qed.

Lemma same_cars_handle_city_selected uid c b :
  same_cars b (after (handle_city_selected uid c b)).
Proof.
  unfold handle_city_selected. destruct (String.eqb _ _); [done|].
  intros uid'. simpl. by rewrite cars_of_set_state, cars_of_update_user.
Qed.

Lemma same_cars_main_menu_branch uid message b :
  same_cars b (after (main_menu_branch uid message b)).
Proof.
  unfold main_menu_branch.
  repeat (destruct (String.eqb message _); [first
    [ done
    | apply same_cars_handle_add_url
    | apply same_cars_handle_list_cars
    | apply same_cars_handle_filters_menu
    | apply same_cars_handle_settings ]|]).
  apply same_cars_handle_start.
Qed.

Lemma same_cars_filters_menu_branch uid message b :
  same_cars b (after (filters_menu_branch uid message b)).
Proof.
  unfold filters_menu_branch.
  repeat (destruct (String.eqb message _);
          [first [done | apply same_cars_store_filter]|]).
  done.
Qed.

Lemma same_cars_handle_condition_selected uid label b :
  same_cars b (after (handle_condition_selected uid label b)).
Proof.
  unfold handle_condition_selected.
  repeat (destruct (String.eqb label _); [apply same_cars_store_filter|]).
  done.
Qed.

Lemma same_cars_handle_documents_selected uid label b :
  same_cars b (after (handle_documents_selected uid label b)).
Proof.
  unfold handle_documents_selected.
  repeat (destruct (String.eqb label _); [apply same_cars_store_filter|]).
  done.
Qed.

Section HandlerFacts.

Variable py_strip : string → string.
Variable py_lower : string → string.
Variable py_int : string → option Z.

Lemma same_cars_handle_price_min uid value b :
  same_cars b (after (handle_price_min py_int uid value b)).
Proof.
  unfold handle_price_min. destruct (parse_price _ _) as [p|]; [|done].
  destruct (p <? 0); [done|]. apply same_cars_store_filter.
Qed.

Lemma same_cars_handle_price_max uid value b :
  same_cars b (after (handle_price_max py_int uid value b)).
Proof.
  unfold handle_price_max. destruct (parse_price _ _) as [p|]; [|done].
  destruct (p <? 0); [done|]. apply same_cars_store_filter.
Qed.

Lemma same_cars_handle_year_min e uid value b :
  same_cars b (after (handle_year_min py_int e uid value b)).
Proof.
  unfold handle_year_min. destruct (py_int _) as [y|]; [|done].
  destruct (year_rejected _ _); [done|]. apply same_cars_store_filter.
Qed.

Lemma same_cars_handle_year_max e uid value b :
  same_cars b (after (handle_year_max py_int e uid value b)).
Proof.
  unfold handle_year_max. destruct (py_int _) as [y|]; [|done].
  destruct (year_rejected _ _); [done|]. apply same_cars_store_filter.
Qed.

(** [handle_url_received] either leaves the listings as they were or adds
    the one listing it was given, fetched and accepted by the filters. *)
Lemma handle_url_received_cars e uid url b :
  same_cars b (after (handle_url_received e uid url b))
  ∨ (∃ cd,
       has_site_marker url = true
       ∧ Dict.mem url (cars_of uid b) = false
       ∧ fetch_car_data e url = Fetched cd
       ∧ cars_of uid (after (handle_url_received e uid url b))
         = Dict.set url (new_car e cd) (cars_of uid b)
       ∧ ∀ uid', uid' ≠ uid →
           cars_of uid' (after (handle_url_received e uid url b))
           = cars_of uid' b).
Proof.
  unfold handle_url_received.
  destruct (has_site_marker url) eqn:Hmark; simpl; [|by left].
  destruct (Dict.get uid (user_data b)) as [u|] eqn:Hu; [|by left].
  destruct (Dict.mem url (monitored_cars u)) eqn:Hmem; [by left|].
  destruct (fetch_car_data e url) as [| |cd] eqn:Hfetch; [by left|by left|].
  destruct (check_filters cd (filters u)); simpl; [|by left].
  right. exists cd. unfold cars_of. rewrite Hu. simpl.
  split_and!; try done.
  - by rewrite dict_get_set_eq.
  - intros uid' Hne. by rewrite dict_get_set_ne.
Qed.

(** The same for a whole message: a listing is added only in the state
    [STATE_ADDING_URL], under a plain message. *)
Lemma handle_message_cars e ev b :
  let o := handle_message py_strip py_lower py_int e ev b in
  let uid := user_id ev in
  let message := py_strip (text_of ev) in
  same_cars b (after o)
  ∨ (∃ cd,
       state_of uid b = STATE_ADDING_URL
       ∧ plain_message py_lower message
       ∧ has_site_marker message = true
       ∧ Dict.mem message (cars_of uid b) = false
       ∧ fetch_car_data e message = Fetched cd
       ∧ cars_of uid (after o) = Dict.set message (new_car e cd) (cars_of uid b)
       ∧ ∀ uid', uid' ≠ uid → cars_of uid' (after o) = cars_of uid' b).
Proof.
  intros o uid message. subst o. unfold handle_message.
  fold uid. fold message.
  destruct (String.eqb_spec message back_label) as [|Hback].
  { left. apply same_cars_handle_start. }
  destruct (bool_decide (state_of uid b = STATE_MAIN_MENU)
            || is_start_word (py_lower message)) eqn:Hmain.
  { left. apply same_cars_main_menu_branch. }
  apply orb_false_iff in Hmain as [Hstate Hword].
  destruct (state_of uid b) eqn:Hs; simpl;
    try (left;
         first [ apply same_cars_main_menu_branch
               | apply same_cars_handle_city_selected
               | apply same_cars_filters_menu_branch
               | apply same_cars_handle_price_min
               | apply same_cars_handle_price_max
               | apply same_cars_handle_year_min
               | apply same_cars_handle_year_max
               | apply same_cars_handle_condition_selected
               | apply same_cars_handle_documents_selected ]).
  destruct (handle_url_received_cars e uid message b)
    as [H|(cd & ? & ? & ? & ? & ?)]; [by left|].
  right. exists cd. split_and!; done.
Qed.

End HandlerFacts.

(** ** What the pass does to the listings *)

Lemma monitor_prices_cars e b uid :
  cars_of uid (monitor_prices e b).1.1
  = map (λ kc, (kc.1, listing_after e uid (threshold_of uid b) kc.1 kc.2))
        (cars_of uid b).
Proof.
  rewrite monitor_prices_total. unfold cars_of, threshold_of. simpl.
  rewrite (dict_get_map_values (user_after e)).
  by destruct (Dict.get uid (user_data b)).
Qed.

(** The three ways a listing leaves its turn: untouched, checked, or
    checked and repriced. *)
Lemma listing_after_cases e uid threshold url c :
  let d := isoformat (poll_now e uid url 0) in
  listing_after e uid threshold url c = c
  ∨ listing_after e uid threshold url c = set_last_check d c
  ∨ ∃ h, listing_after e uid threshold url c
         = record_price (h_price h) h (set_last_check d c).
Proof.
  unfold listing_after, monitor_listing, check_listing.
  destruct (poll_fetch e uid url) as [| |nd]; simpl; [by left|by left|].
  destruct (negb (price c =? cd_price nd)); [|by right; left].
  destruct (price c =? 0); [by right; left|].
  destruct (change_percent _ _) as [percent|]; [|by right; left].
  destruct (PyFloat.ge _ _); [|by right; left].
  right; right. by eexists {| h_price := _; h_date := _ |}.
Qed.

Lemma listing_after_history e uid threshold url c :
  ∃ more, price_history (listing_after e uid threshold url c)
          = price_history c ++ more.
Proof.
  destruct (listing_after_cases e uid threshold url c) as [->|[->|[h ->]]].
  - exists []. by rewrite app_nil_r.
  - exists []. by rewrite app_nil_r.
  - by exists [h].
Qed.

Lemma listing_after_matches e uid threshold url c :
  history_matches_price c →
  history_matches_price (listing_after e uid threshold url c).
Proof.
  intros Hok.
  destruct (listing_after_cases e uid threshold url c) as [->|[->|[h ->]]];
    [done|done|].
  exists h. simpl. by rewrite last_snoc.
Qed.

Lemma new_car_matches e cd : history_matches_price (new_car e cd).
Proof. by eexists. Qed.

Lemma dict_mem_get {K V : Type} `{EqDecision K} (k : K) (d : list (K * V)) :
  Dict.mem k d = true ↔ ∃ v, Dict.get k d = Some v.
Proof.
  unfold Dict.mem. destruct (Dict.get k d) as [v|].
  - split; [eauto|done].
  - split; [done|]. by intros [? ?].
Qed.

Lemma state_of_set_state uid s b : state_of uid (set_state uid s b) = s.
Proof. unfold state_of, set_state. simpl. by rewrite lookup_insert_eq. Qed.

(** ** Invariants of the runs *)

Section Invariants.

Variable py_strip : string → string.
Variable py_lower : string → string.
Variable py_int : string → option Z.

Local Abbreviation step := (step py_strip py_lower py_int).
Local Abbreviation reachable := (reachable py_strip py_lower py_int).

(** A step never drops a listing and only appends to its history. *)
Lemma step_appends b b' :
  step b b' →
  ∀ uid url c, tracked b uid url c →
    ∃ c' more, tracked b' uid url c'
               ∧ price_history c' = price_history c ++ more.
Proof.
  intros Hstep uid url c Hc. apply tracked_cars_of in Hc.
  destruct Hstep as [e ev b|e b].
  - destruct (handle_message_cars py_strip py_lower py_int e ev b)
      as [Hsame|(cd & _ & _ & _ & Hfresh & _ & Hadd & Hother)].
    + exists c, []. rewrite tracked_cars_of, Hsame, app_nil_r. done.
    + exists c, []. rewrite tracked_cars_of, app_nil_r. split; [|done].
      destruct (decide (uid = user_id ev)) as [->|Hne].
      * rewrite Hadd, dict_get_set_ne; [done|].
        intros ->. unfold Dict.mem in Hfresh. by rewrite Hc in Hfresh.
      * by rewrite Hother.
  - destruct (listing_after_history e uid (threshold_of uid b) url c)
      as [more Hmore].
    eexists _, more. split; [|exact Hmore].
    rewrite tracked_cars_of, monitor_prices_cars.
    rewrite (dict_get_map_values
               (λ k v, listing_after e uid (threshold_of uid b) k v)).
    by rewrite Hc.
Qed.

(** A listing that a step brings in is the one [handle_url_received]
    builds from the data fetched. *)
Lemma step_creates b b' :
  step b b' →
  ∀ uid url c', untracked b uid url → tracked b' uid url c' →
    ∃ e cd, c' = new_car e cd.
Proof.
  intros Hstep uid url c' Hnot Hc'. apply tracked_cars_of in Hc'.
  assert (Hnone : Dict.get url (cars_of uid b) = None).
  { destruct (Dict.get url (cars_of uid b)) as [c|] eqn:Hc; [|done].
    destruct (Hnot c). by apply tracked_cars_of. }
  destruct Hstep as [e ev b|e b].
  - destruct (handle_message_cars py_strip py_lower py_int e ev b)
      as [Hsame|(cd & _ & _ & _ & _ & _ & Hadd & Hother)].
    + rewrite Hsame in Hc'. congruence.
    + destruct (decide (uid = user_id ev)) as [->|Hne].
      * rewrite Hadd in Hc'.
        destruct (decide (url = py_strip (text_of ev))) as [->|Hurl].
        -- rewrite dict_get_set_eq in Hc'. exists e, cd. congruence.
        -- rewrite dict_get_set_ne in Hc' by done. congruence.
      * rewrite Hother in Hc' by done. congruence.
  - rewrite monitor_prices_cars in Hc'.
    rewrite (dict_get_map_values
               (λ k v, listing_after e uid (threshold_of uid b) k v)) in Hc'.
    by rewrite Hnone in Hc'.
Qed.

Lemma step_keeps_history_matching b b' :
  step b b' →
  (∀ uid url c, tracked b uid url c → history_matches_price c) →
  ∀ uid url c, tracked b' uid url c → history_matches_price c.
Proof.
  intros Hstep Hinv uid url c' Hc'.
  destruct (Dict.get url (cars_of uid b)) as [c|] eqn:Hc.
  - destruct Hstep as [e ev b|e b].
    + destruct (step_appends b _ (step_message _ _ _ e ev b) uid url c)
        as (c2 & more & Hc2 & _); [by apply tracked_cars_of|].
      apply tracked_cars_of in Hc', Hc2.
      destruct (handle_message_cars py_strip py_lower py_int e ev b)
        as [Hsame|(cd & _ & _ & _ & Hfresh & _ & Hadd & Hother)].
      * rewrite Hsame in Hc'. apply (Hinv uid url).
        by apply tracked_cars_of.
      * apply (Hinv uid url). apply tracked_cars_of.
        destruct (decide (uid = user_id ev)) as [->|Hne].
        -- rewrite Hadd, dict_get_set_ne in Hc'; [done|].
           intros ->. unfold Dict.mem in Hfresh. by rewrite Hc in Hfresh.
        -- by rewrite Hother in Hc'.
    + apply tracked_cars_of in Hc'.
      rewrite monitor_prices_cars in Hc'.
      rewrite (dict_get_map_values
                 (λ k v, listing_after e uid (threshold_of uid b) k v)) in Hc'.
      rewrite Hc in Hc'. injection Hc' as <-.
      apply listing_after_matches, (Hinv uid url). by apply tracked_cars_of.
  - destruct (step_creates b b' Hstep uid url c') as (e & cd & ->);
      [|done|apply new_car_matches].
    intros c Hc0. apply tracked_cars_of in Hc0. congruence.
Qed.

Lemma reachable_history_matches b :
  reachable b →
  ∀ uid url c, tracked b uid url c → history_matches_price c.
Proof.
  induction 1 as [|b b' _ IH Hstep].
  - intros uid url c Hc. apply tracked_cars_of in Hc. done.
  - by apply (step_keeps_history_matching b b').
Qed.

(** C3. In every state the bot reaches, each tracked listing has a price
    history whose last entry carries the current price.  A step keeps
    every listing and only appends to its history.  A listing that a step
    brings in has a history of exactly one entry, with the price fetched at
    that moment, which is also its current and its initial price. *)
Theorem price_history_follows_price :
  (∀ b, reachable b →
     ∀ uid url c, tracked b uid url c →
       price_history c ≠ [] ∧ history_matches_price c)
  ∧ (∀ b b', step b b' →
       ∀ uid url c, tracked b uid url c →
         ∃ c' more, tracked b' uid url c'
                    ∧ price_history c' = price_history c ++ more)
  ∧ (∀ b b', step b b' →
       ∀ uid url c', untracked b uid url → tracked b' uid url c' →
         ∃ h, price_history c' = [h]
              ∧ h_price h = price c'
              ∧ price c' = initial_price c'
              ∧ ∃ e cd, c' = new_car e cd ∧ price c' = cd_price cd).
Proof.
  split_and!.
  - intros b Hb uid url c Hc.
    destruct (reachable_history_matches b Hb uid url c Hc) as (h & Hlast & Hp).
    split; [|by exists h]. intros Hnil. by rewrite Hnil in Hlast.
  - apply step_appends.
  - intros b b' Hstep uid url c' Hnot Hc'.
    destruct (step_creates b b' Hstep uid url c' Hnot Hc') as (e & cd & ->).
    eexists. split_and!; [reflexivity|done|done|]. by exists e, cd.
Qed.

(** Every tracked URL went through the dispatcher as a plain message and
    carries a site marker. *)
Lemma reachable_urls_accepted b :
  reachable b → urls_accepted py_lower b.
Proof.
  induction 1 as [|b b' _ IH Hstep].
  - intros uid u url Hu. done.
  - assert (Hinv : ∀ uid url, Dict.mem url (cars_of uid b) = true →
               has_site_marker url = true
               ∧ is_start_word (py_lower url) = false).
    { intros uid url. unfold cars_of.
      destruct (Dict.get uid (user_data b)) as [u|] eqn:Hu; [|done].
      intros Hm. by apply (IH uid u url). }
    intros uid u url Hu Hmem.
    assert (Hmem' : Dict.mem url (cars_of uid b') = true).
    { unfold cars_of. by rewrite Hu. }
    clear Hu Hmem u. destruct Hstep as [e ev b|e b].
    + destruct (handle_message_cars py_strip py_lower py_int e ev b)
        as [Hsame|(cd & _ & [_ Hword] & Hmark & _ & _ & Hadd & Hother)].
      * rewrite Hsame in Hmem'. by apply (Hinv uid).
      * destruct (decide (uid = user_id ev)) as [->|Hne].
        -- rewrite Hadd in Hmem'.
           destruct (decide (url = py_strip (text_of ev))) as [->|Hurl];
             [done|].
           apply (Hinv (user_id ev)). apply dict_mem_get.
           apply dict_mem_get in Hmem' as [v Hv].
           rewrite dict_get_set_ne in Hv by done. eauto.
        -- rewrite Hother in Hmem' by done. by apply (Hinv uid).
    + apply (Hinv uid). apply dict_mem_get.
      apply dict_mem_get in Hmem' as [v Hv].
      rewrite monitor_prices_cars in Hv.
      rewrite (dict_get_map_values
                 (λ k v, listing_after e uid (threshold_of uid b) k v)) in Hv.
      destruct (Dict.get url (cars_of uid b)); [eauto|done].
Qed.

(** C6. In a state the bot reaches, when the user is adding a URL and the
    text received is a URL already among that user's listings, the handler
    answers that the listing is already there, with the main menu keyboard,
    sets the dialog to the main menu, and leaves the store, and with it
    the user's listings and their number, as it was. *)
Theorem duplicate_url_returns_to_main_menu
    (e : env) (ev : event) (b : bot) (u : user) :
  reachable b →
  state_of (user_id ev) b = STATE_ADDING_URL →
  Dict.get (user_id ev) (user_data b) = Some u →
  Dict.mem (py_strip (text_of ev)) (monitored_cars u) = true →
  let o := handle_message py_strip py_lower py_int e ev b in
  o = returns (set_state (user_id ev) STATE_MAIN_MENU b)
              [send (user_id ev) AlreadyAdded MainMenuKeyboard]
  ∧ raised o = None
  ∧ state_of (user_id ev) (after o) = STATE_MAIN_MENU
  ∧ user_data (after o) = user_data b
  ∧ cars_of (user_id ev) (after o) = monitored_cars u
  ∧ length (cars_of (user_id ev) (after o)) = length (monitored_cars u).
Proof.
  intros Hreach Hstate Hu Hmem o.
  destruct (reachable_urls_accepted b Hreach _ _ _ Hu Hmem) as [Hmark Hword].
  assert (Ho : o = returns (set_state (user_id ev) STATE_MAIN_MENU b)
                     [send (user_id ev) AlreadyAdded MainMenuKeyboard]).
  { subst o. unfold handle_message.
    destruct (String.eqb_spec (py_strip (text_of ev)) back_label) as [Hb|_].
    { rewrite Hb in Hmark. done. }
    rewrite Hstate, Hword. simpl.
    unfold handle_url_received. by rewrite Hmark, Hu, Hmem. }
  rewrite Ho. simpl. split_and!; try done.
  - apply state_of_set_state.
  - unfold cars_of. simpl. by rewrite Hu.
  - unfold cars_of. simpl. by rewrite Hu.
Qed.

End Invariants.

(** ** Stored filters *)

Lemma filters_of_lookup uid b :
  filters_of uid b
  = match Dict.get uid (user_data b) with
    | Some u => filters u
    | None => no_filters
    end.
Proof.
  unfold filters_of, get_user_data.
  by destruct (Dict.get uid (user_data b)).
Qed.

Lemma filters_of_set_state uid' uid s b :
  filters_of uid' (set_state uid s b) = filters_of uid' b.
Proof. by rewrite !filters_of_lookup. Qed.

Lemma filters_of_get_user_data uid' uid b :
  filters_of uid' (get_user_data uid b).1 = filters_of uid' b.
Proof.
  rewrite !filters_of_lookup. unfold get_user_data.
  destruct (Dict.get uid (user_data b)) as [u|] eqn:Hu; [done|]. simpl.
  destruct (decide (uid' = uid)) as [->|Hne].
  - by rewrite dict_get_set_eq, Hu.
  - by rewrite dict_get_set_ne.
Qed.

Lemma filters_of_update_user uid upd b :
  filters_of uid (update_user uid (λ u, set_filters (upd (filters u)) u) b)
  = upd (filters_of uid b).
Proof.
  rewrite !filters_of_lookup. unfold update_user, get_user_data.
  destruct (Dict.get uid (user_data b)) as [u|] eqn:Hu; simpl;
    by rewrite dict_get_set_eq.
Qed.

Lemma store_filter_effect uid upd next reply k b :
  let o := store_filter uid upd next reply k b in
  raised o = None
  ∧ state_of uid (after o) = next
  ∧ filters_of uid (after o) = upd (filters_of uid b)
  ∧ sent o = [send uid (reply (upd (filters_of uid b))) k].
Proof.
  unfold store_filter. simpl. split_and!; [done| | |].
  - apply state_of_set_state.
  - by rewrite filters_of_set_state, filters_of_update_user.
  - by rewrite filters_of_update_user.
Qed.

Lemma handle_start_effect uid b :
  let o := handle_start uid b in
  raised o = None
  ∧ after o = set_state uid STATE_MAIN_MENU (get_user_data uid b).1
  ∧ (∃ info, sent o = [send uid (Welcome info) MainMenuKeyboard])
  ∧ state_of uid (after o) = STATE_MAIN_MENU
  ∧ (∀ uid', filters_of uid' (after o) = filters_of uid' b).
Proof.
  unfold handle_start. destruct (get_user_data uid b) as [b1 u] eqn:Hg.
  simpl. split_and!; [done|done|eauto|apply state_of_set_state|].
  intros uid'. rewrite filters_of_set_state.
  change b1 with (b1, u).1. rewrite <- Hg. apply filters_of_get_user_data.
Qed.

Section Dialog.

Variable py_strip : string → string.
Variable py_lower : string → string.
Variable py_int : string → option Z.

Local Abbreviation handle := (handle_message py_strip py_lower py_int).

(** A plain message in a state other than the main menu goes to the
    handler of the state. *)
Lemma plain_message_dispatch e ev b :
  plain_message py_lower (py_strip (text_of ev)) →
  state_of (user_id ev) b ≠ STATE_MAIN_MENU →
  handle e ev b
  = state_handler py_int e (state_of (user_id ev) b) (user_id ev)
      (py_strip (text_of ev)) b.
Proof.
  intros [Hback Hword] Hstate. unfold handle_message.
  destruct (String.eqb_spec (py_strip (text_of ev)) back_label); [done|].
  by rewrite bool_decide_eq_false_2, Hword.
Qed.



(** C10. Whatever the state, a message whose lower-case form is one of the
    start words takes the main menu branch; as lower case sends none of
    the keyboard's labels to a start word, the branch ends in
    [handle_start] and the dialog is at the main menu. *)
Theorem start_word_leads_to_main_menu (e : env) (ev : event) (b : bot) :
  (∀ l, In l (back_label :: main_menu_labels) →
        is_start_word (py_lower l) = false) →
  is_start_word (py_lower (py_strip (text_of ev))) = true →
  let uid := user_id ev in
  let o := handle e ev b in
  o = main_menu_branch uid (py_strip (text_of ev)) b
  ∧ o = handle_start uid b
  ∧ raised o = None
  ∧ state_of uid (after o) = STATE_MAIN_MENU
  ∧ (∃ info, sent o = [send uid (Welcome info) MainMenuKeyboard]).
Proof.
  intros Hlabels Hword uid o.
  set (message := py_strip (text_of ev)) in *.
  assert (Hnot : ∀ l, In l (back_label :: main_menu_labels) →
                      String.eqb message l = false).
  { intros l Hl. destruct (String.eqb_spec message l) as [->|]; [|done].
    rewrite (Hlabels l Hl) in Hword. done. }
  assert (Hbranch : o = main_menu_branch uid message b).
  { subst o. unfold handle_message. fold message.
    rewrite (Hnot back_label) by (by left).
    by rewrite Hword, orb_true_r. }
  assert (Hstart : main_menu_branch uid message b = handle_start uid b).
  { unfold main_menu_branch.
    rewrite !Hnot; [done|..]; simpl; tauto. }
  destruct (handle_start_effect uid b) as (? & ? & ? & ? & ?).
  rewrite Hbranch, Hstart. by split_and!.
Qed.

(** In the state [STATE_ADDING_URL], a URL whose data do not pass the
    user's filters is answered with the warning and changes nothing. *)
Lemma filter_mismatch_changes_nothing e ev b u cd :
  let uid := user_id ev in
  let url := py_strip (text_of ev) in
  state_of uid b = STATE_ADDING_URL →
  plain_message py_lower url →
  has_site_marker url = true →
  Dict.get uid (user_data b) = Some u →
  Dict.mem url (monitored_cars u) = false →
  fetch_car_data e url = Fetched cd →
  check_filters cd (filters u) = false →
  handle e ev b
  = returns b
      [send uid Fetching NoKeyboard;
       send uid (FilterMismatch (cd_title cd) (cd_price cd)
                   (if truthy (cd_year cd) then cd_year cd else None))
            NoKeyboard].
Proof.
  intros uid url Hstate Hplain Hmark Hu Hmem Hfetch Hcheck. subst uid url.
  rewrite plain_message_dispatch by (done || by rewrite Hstate).
  rewrite Hstate. simpl. unfold handle_url_received.
  by rewrite Hmark, Hu, Hmem, Hfetch, Hcheck.
Qed.

(** Sending the URL once more runs the same test once more. *)
Lemma resubmission_is_checked_again e1 e2 ev b u cd1 cd2 :
  let uid := user_id ev in
  let url := py_strip (text_of ev) in
  state_of uid b = STATE_ADDING_URL →
  plain_message py_lower url →
  has_site_marker url = true →
  Dict.get uid (user_data b) = Some u →
  Dict.mem url (monitored_cars u) = false →
  fetch_car_data e1 url = Fetched cd1 →
  check_filters cd1 (filters u) = false →
  fetch_car_data e2 url = Fetched cd2 →
  check_filters cd2 (filters u) = false →
  let o1 := handle e1 ev b in
  let o2 := handle e2 ev (after o1) in
  after o2 = b ∧ Dict.mem url (cars_of uid (after o2)) = false.
Proof.
  intros uid url Hstate Hplain Hmark Hu Hmem Hf1 Hc1 Hf2 Hc2 o1 o2.
  subst o1 o2.
  rewrite (filter_mismatch_changes_nothing e1 ev b u cd1) by done. simpl.
  rewrite (filter_mismatch_changes_nothing e2 ev b u cd2) by done. simpl.
  split; [done|]. unfold cars_of. subst uid. by rewrite Hu.
Qed.

End Dialog.

(** ** The handlers at work *)

Section ScenarioFacts.
Import Scenario.

Lemma dialog_reachable e texts b :
  reachable PyModel.strip PyModel.lower PyModel.int b →
  reachable PyModel.strip PyModel.lower PyModel.int (dialog e texts b).
Proof.
  revert b. induction texts as [|t texts IH]; intros b Hb; [done|].
  simpl. apply IH. eapply reach_step; [exact Hb|]. apply step_message.
Qed.

Lemma tracking_reachable p :
  reachable PyModel.strip PyModel.lower PyModel.int (tracking p).
Proof. repeat apply dialog_reachable. apply reach_init. Qed.

Lemma tracking_tracks p : tracked (tracking p) 1 kia_url (kia_car p).
Proof. apply tracked_cars_of. by vm_compute. Qed.

Lemma check_filters_rules_witness :
  check_filters (kia 300000)
    (set_price_min (Some 300000) (set_condition (Some CondNew) no_filters))
  = true.
Proof.
  destruct (check_filters_rules (kia 300000)
              (set_price_min (Some 300000)
                 (set_condition (Some CondNew) no_filters)))
    as (_ & Hmin & _ & _).
  rewrite Hmin; reflexivity.
Defined.

Lemma price_change_recorded_and_notified_witness :
  let percent := SpecFloat.S754_finite true 5629499534213120 (-49) in
  poll_fetch (poll (kia 900000)) 1 kia_url = Fetched (kia 900000)
  ∧ change_percent 1000000 900000 = Some percent
  ∧ PyFloat.format_signed_1f percent = "-10.0"
  ∧ PyFloat.ge (PyFloat.abs percent) 5 = true
  ∧ ∃ c' o,
      monitor_listing (poll (kia 900000)) 1 5 kia_url (kia_car 1000000)
      = (c', [Notified o], None)
      ∧ price c' = 900000
      ∧ body o
        = PriceChanged true "Kia Rio" 1000000 900000 (-100000) percent
            (Some 100000) kia_url.
Proof.
  intros percent. do 4 (split; [reflexivity|]).
  destruct (price_change_recorded_and_notified (poll (kia 900000)) 1 5
              kia_url (kia_car 1000000) (kia 900000) percent)
    as (c' & o & Hrun & Hprice & _ & _ & Hbody & _);
    [reflexivity|discriminate|discriminate|reflexivity|reflexivity|].
  exists c', o. split; [exact Hrun|]. split; [exact Hprice|exact Hbody].
Defined.

Lemma small_change_absorbed_witness :
  let percent := SpecFloat.S754_finite true 4503599627370496 (-50) in
  change_percent 1000000 960000 = Some percent
  ∧ PyFloat.format_signed_1f percent = "-4.0"
  ∧ PyFloat.ge (PyFloat.abs percent) 5 = false
  ∧ monitor_listing (poll (kia 960000)) 1 5 kia_url (kia_car 1000000)
    = (set_last_check "2024-05-01T12:30:00" (kia_car 1000000), [], None).
Proof.
  intros percent. do 3 (split; [reflexivity|]).
  destruct (small_change_absorbed (poll (kia 960000)) 1 5 kia_url
              (kia_car 1000000) (kia 960000))
    as (c' & Hrun & Hc' & _);
    [reflexivity
    |right; split; [discriminate|exists percent; split; reflexivity]|].
  rewrite Hrun, Hc'. reflexivity.
Defined.

(** C1 as stated fails.  At a threshold of 29, for a listing at 1000000
    and a fresh price of 1290000, the percent delta of the specification is
    29 and reaches the threshold; the code computes [290000 / 1000000 * 100]
    in floating point, which is 28.999999999999996, and leaves price and
    history as they were, without a notification.  And at the threshold 5
    that every record has, for a listing at 1 and a fresh price of
    [10 ^ 400], the division raises [OverflowError]: the error is logged,
    price and history stay, nothing is sent. *)
Lemma rounded_percentage_misses_threshold :
  (29 <= spec_percent_delta 1000000 1290000)%Q
  ∧ (∃ x, price_change_percent 1000000 1290000 = Some x
          ∧ (PyFloat.to_Q x < 29)%Q
          ∧ PyFloat.ge x 29 = false)
  ∧ monitor_listing (poll (kia 1290000)) 1 29 kia_url (kia_car 1000000)
    = (set_last_check "2024-05-01T12:30:00" (kia_car 1000000), [], None)
  ∧ (5 <= spec_percent_delta 1 (10 ^ 400))%Q
  ∧ price_change_percent 1 (10 ^ 400) = None
  ∧ monitor_listing (poll (kia (10 ^ 400))) 1 5 kia_url (kia_car 1)
    = (set_last_check "2024-05-01T12:30:00" (kia_car 1),
       [MonitorError kia_url OverflowError], None).
Proof.
  split; [apply Qle_bool_iff; by vm_compute|].
  split; [eexists; split; [by vm_compute|]; split; by vm_compute|].
  split; [by vm_compute|].
  split; [apply Qle_bool_iff; by vm_compute|].
  split; by vm_compute.
Qed.

(** C2 as stated fails.  At the threshold 5 that every record has, for a
    listing at 200000000000000000 and a fresh price of 190000000000000001,
    the percent delta of the specification is below 5; the code computes
    the quotient and the product in floating point and gets 5.0, so the
    listing is repriced, its history gets an entry, and a notification goes
    out. *)
Lemma rounded_percentage_reaches_threshold :
  let old := 200000000000000000 in
  let new := 190000000000000001 in
  (spec_percent_delta old new < 5)%Q
  ∧ (∃ x, price_change_percent old new = Some x
          ∧ (PyFloat.to_Q x == 5)%Q
          ∧ PyFloat.ge x 5 = true)
  ∧ ∃ c' o,
      monitor_listing (poll (kia new)) 1 5 kia_url (kia_car old)
      = (c', [Notified o], None)
      ∧ price c' = new
      ∧ price_history c'
        = price_history (kia_car old)
          ++ [{| h_price := new; h_date := "2024-05-01T12:30:00" |}]
      ∧ to o = 1.
Proof.
  intros old new. split; [by vm_compute|].
  split; [eexists; split; [by vm_compute|]; split; by vm_compute|].
  eexists _, _. split; [by vm_compute|]. split_and!; by vm_compute.
Qed.

Lemma price_history_follows_price_witness :
  price_history (kia_car 1000000) ≠ []
  ∧ history_matches_price (kia_car 1000000).
Proof.
  destruct (price_history_follows_price PyModel.strip PyModel.lower
              PyModel.int) as (Hinv & _ & _).
  exact (Hinv (tracking 1000000) (tracking_reachable 1000000) 1 kia_url
           (kia_car 1000000) (tracking_tracks 1000000)).
Defined.

Lemma duplicate_url_returns_to_main_menu_witness :
  state_of 1 (tracking 1000000) = STATE_ADDING_URL
  ∧ Dict.mem kia_url (cars_of 1 (tracking 1000000)) = true
  ∧ (let o := PyModel.handle offline (say kia_url) (tracking 1000000) in
     sent o = [send 1 AlreadyAdded MainMenuKeyboard]
     ∧ state_of 1 (after o) = STATE_MAIN_MENU
     ∧ user_data (after o) = user_data (tracking 1000000)).
Proof.
  split; [reflexivity|]. split; [reflexivity|].
  destruct (duplicate_url_returns_to_main_menu PyModel.strip PyModel.lower
              PyModel.int offline (say kia_url) (tracking 1000000)
              {| city := Some "Москва";
                 monitored_cars := [(kia_url, kia_car 1000000)];
                 filters := no_filters; price_threshold := 5 |}
              (tracking_reachable 1000000))
    as (Ho & _ & Hstate & Hdata & _);
    [reflexivity|reflexivity|reflexivity|].
  split; [|split; [exact Hstate|exact Hdata]].
  unfold PyModel.handle. rewrite Ho. reflexivity.
Defined.



Lemma start_word_leads_to_main_menu_witness :
  state_of 1 awaiting_year_min = STATE_YEAR_MIN
  ∧ is_start_word (PyModel.lower (PyModel.strip " Меню ")) = true
  ∧ state_of 1 (after (PyModel.handle offline (say " Меню ")
                         awaiting_year_min))
    = STATE_MAIN_MENU.
Proof.
  split; [reflexivity|]. split; [reflexivity|].
  destruct (start_word_leads_to_main_menu PyModel.strip PyModel.lower
              PyModel.int offline (say " Меню ") awaiting_year_min)
    as (_ & _ & _ & Hstate & _); [|reflexivity|exact Hstate].
  intros l Hl. simpl in Hl.
  repeat (destruct Hl as [<-|Hl]; [reflexivity|]). destruct Hl.
Defined.


(** C4, at a listing above the user's upper price bound: sent once, it is
    answered with the warning that invites to send the link once more;
    sent once more, it gets the same warning, and the listing is not
    tracked. *)
Theorem resubmitted_url_is_not_added :
  let b := adding_with_price_max in
  let o1 := PyModel.handle (world (kia 1000000)) (say kia_url) b in
  let o2 := PyModel.handle (world (kia 1000000)) (say kia_url) (after o1) in
  price_max (filters_of 1 b) = Some 500000
  ∧ state_of 1 b = STATE_ADDING_URL
  ∧ sent o1 = [send 1 Fetching NoKeyboard;
               send 1 (FilterMismatch "Kia Rio" 1000000 (Some 2018))
                    NoKeyboard]
  ∧ state_of 1 (after o1) = STATE_ADDING_URL
  ∧ sent o2 = sent o1
  ∧ raised o2 = None
  ∧ state_of 1 (after o2) = STATE_ADDING_URL
  ∧ cars_of 1 (after o2) = []
  ∧ untracked (after o2) 1 kia_url.
Proof.
  split_and!; try reflexivity.
  intros c Hc. apply tracked_cars_of in Hc. by vm_compute in Hc.
Qed.



End ScenarioFacts.

(** * Further properties of the code *)

(** ** Filters *)

(** X1. After [handle_clear_filters], as for a user who never set a filter,
    every listing passes [check_filters]. *)
Theorem cleared_filters_accept_everything (uid : Z) (b : bot) (cd : car_data) :
  let o := handle_clear_filters uid b in
  filters_of uid (after o) = no_filters
  ∧ state_of uid (after o) = STATE_SETTING_FILTERS
  ∧ sent o = [send uid FiltersCleared FiltersKeyboard]
  ∧ check_filters cd (filters_of uid (after o)) = true
  ∧ check_filters cd (filters default_user) = true.
Proof.
  intros o. subst o. unfold handle_clear_filters.
  destruct (store_filter_effect uid (λ _, no_filters) STATE_SETTING_FILTERS
              (λ _, FiltersCleared) FiltersKeyboard b) as (_ & Hs & Hf & Hm).
  rewrite Hf. split_and!; try done.
  - unfold check_filters. simpl. destruct (cd_year cd) as [y|]; [|done].
    by destruct (negb (y =? 0)).
  - unfold check_filters. simpl. destruct (cd_year cd) as [y|]; [|done].
    by destruct (negb (y =? 0)).
Qed.

(** X2. The two price bounds are stored without being compared: with a
    lower bound above the upper bound no listing passes [check_filters],
    whatever its price. *)
Theorem inverted_price_range_rejects_everything
    (cd : car_data) (f : filters_t) (lo hi : Z) :
  price_min f = Some lo → price_max f = Some hi → 0 < hi → hi < lo →
  check_filters cd f = false.
Proof.
  intros Hlo Hhi Hpos Hinv. unfold check_filters.
  destruct (below_bound (cd_price cd) (price_min f)) eqn:Hbelow; [done|].
  assert (Habove : above_bound (cd_price cd) (price_max f) = true).
  { apply above_bound_true. exists hi. split_and!; [done|lia|].
    destruct (Z.lt_ge_cases (cd_price cd) lo) as [Hlt|Hge]; [|lia].
    assert (below_bound (cd_price cd) (price_min f) = true); [|congruence].
    apply below_bound_true. exists lo. split_and!; [done|lia|done]. }
  by rewrite Habove.
Qed.

(** ** Reading a price *)

Lemma remove_char_app c s t :
  remove_char c (s ++ t)%string
  = (remove_char c s ++ remove_char c t)%string.
Proof.
  induction s as [|a s IH]; simpl; [done|].
  destruct (Ascii.eqb a c); simpl; by rewrite IH.
Qed.

Lemma remove_char_twice c s : remove_char c (remove_char c s) = remove_char c s.
Proof.
  induction s as [|a s IH]; simpl; [done|].
  destruct (Ascii.eqb a c) eqn:Hac; simpl; [done|]. by rewrite Hac, IH.
Qed.

Lemma remove_char_comm c d s :
  remove_char c (remove_char d s) = remove_char d (remove_char c s).
Proof.
  induction s as [|a s IH]; simpl; [done|].
  destruct (Ascii.eqb a d) eqn:Had, (Ascii.eqb a c) eqn:Hac; simpl;
    rewrite ?Had, ?Hac, ?IH; done.
Qed.

Section Prices.

Variable py_strip : string → string.
Variable py_lower : string → string.
Variable py_int : string → option Z.

Local Abbreviation handle := (handle_message py_strip py_lower py_int).

(** X3. Spaces and commas in a price are dropped before [int] reads it,
    wherever they stand: a text reads as the text without them. *)
Theorem parse_price_ignores_separators (s t : string) :
  parse_price py_int (s ++ " " ++ t) = parse_price py_int (s ++ t)
  ∧ parse_price py_int (s ++ "," ++ t) = parse_price py_int (s ++ t)
  ∧ parse_price py_int (remove_char " " s) = parse_price py_int s
  ∧ parse_price py_int (remove_char "," s) = parse_price py_int s.
Proof.
  unfold parse_price. split_and!.
  - by rewrite !remove_char_app.
  - by rewrite !remove_char_app.
  - by rewrite remove_char_twice.
  - by rewrite (remove_char_comm "," " "), remove_char_twice,
         (remove_char_comm " " ",").
Qed.


(** ** Choosing the condition and the documents *)

Lemma handle_condition_selected_label uid label b :
  handle_condition_selected uid label b
  = match condition_of_label label with
    | Some c => store_filter uid (set_condition (Some c))
                  STATE_SETTING_FILTERS ConditionSet FiltersKeyboard b
    | None => returns b []
    end.
Proof.
  unfold handle_condition_selected, condition_of_label.
  by repeat destruct (String.eqb label _).
Qed.

Lemma handle_documents_selected_label uid label b :
  handle_documents_selected uid label b
  = match documents_of_label label with
    | Some d => store_filter uid (set_documents (Some d))
                  STATE_SETTING_FILTERS DocumentsSet FiltersKeyboard b
    | None => returns b []
    end.
Proof.
  unfold handle_documents_selected, documents_of_label.
  by repeat destruct (String.eqb label _).
Qed.




End Prices.

(** ** City and URL *)

Lemma record_of_lookup uid b :
  record_of uid b = default default_user (Dict.get uid (user_data b)).
Proof.
  unfold record_of, get_user_data.
  by destruct (Dict.get uid (user_data b)).
Qed.

Lemma state_of_get_user_data uid' uid b :
  state_of uid' (get_user_data uid b).1 = state_of uid' b.
Proof.
  unfold get_user_data. by destruct (Dict.get uid (user_data b)).
Qed.




Section Adding.

Variable py_strip : string → string.
Variable py_lower : string → string.
Variable py_int : string → option Z.

Local Abbreviation handle := (handle_message py_strip py_lower py_int).

(** X6. At the main menu, the button that adds a listing opens the URL
    dialog only for a user whose record has a city; without one (no
    record, no city, or the empty city) the user is told to choose a city
    first and stays at the main menu.  No listing changes either way. *)
Theorem adding_requires_city (e : env) (ev : event) (b : bot) :
  py_strip (text_of ev) = add_url_label →
  state_of (user_id ev) b = STATE_MAIN_MENU →
  let uid := user_id ev in
  let o := handle e ev b in
  raised o = None
  ∧ (∀ uid', cars_of uid' (after o) = cars_of uid' b)
  ∧ (if truthy_str (city (record_of uid b))
     then state_of uid (after o) = STATE_ADDING_URL
          ∧ sent o = [send uid SendUrlPrompt BackKeyboard]
     else state_of uid (after o) = STATE_MAIN_MENU
          ∧ sent o = [send uid NeedCityFirst MainMenuKeyboard]).
Proof.
  intros Hmsg Hstate uid o. subst uid.
  assert (Ho : o = handle_add_url (user_id ev) b).
  { subst o. unfold handle_message. by rewrite Hmsg, Hstate. }
  rewrite Ho. split_and!.
  - unfold handle_add_url.
    destruct (get_user_data (user_id ev) b) as [b1 u].
    by destruct (negb _).
  - apply same_cars_handle_add_url.
  - unfold handle_add_url, record_of.
    pose proof (state_of_get_user_data (user_id ev) (user_id ev) b) as Hs.
    destruct (get_user_data (user_id ev) b) as [b1 u]. simpl in *.
    destruct (truthy_str (city u)); simpl.
    + split; [apply state_of_set_state|done].
    + split; [congruence|done].
Qed.



End Adding.

(** ** More on the polling pass *)

(** A turn leaves the descriptive fields of a listing alone. *)
Lemma listing_after_fields e uid threshold url c :
  let c' := listing_after e uid threshold url c in
  title c' = title c ∧ initial_price c' = initial_price c
  ∧ site c' = site c ∧ year c' = year c ∧ mileage c' = mileage c
  ∧ location c' = location c ∧ added_date c' = added_date c.
Proof.
  intros c'. subst c'.
  by destruct (listing_after_cases e uid threshold url c) as [->|[->|[h ->]]].
Qed.

Lemma user_after_fields e uid u :
  city (user_after e uid u) = city u
  ∧ filters (user_after e uid u) = filters u
  ∧ price_threshold (user_after e uid u) = price_threshold u
  ∧ Dict.keys (monitored_cars (user_after e uid u))
    = Dict.keys (monitored_cars u).
Proof.
  unfold user_after, Dict.keys. simpl. split_and!; try done.
  rewrite map_map. by apply map_ext.
Qed.

Lemma monitor_prices_get e b uid :
  Dict.get uid (user_data (monitor_prices e b).1.1)
  = user_after e uid <$> Dict.get uid (user_data b).
Proof.
  rewrite monitor_prices_total. simpl.
  apply (dict_get_map_values (user_after e)).
Qed.

Lemma pass_keeps_urls_and_states e b uid :
  Dict.keys (cars_of uid (monitor_prices e b).1.1) = Dict.keys (cars_of uid b)
  ∧ user_states (monitor_prices e b).1.1 = user_states b.
Proof.
  split; [|by rewrite monitor_prices_total].
  rewrite monitor_prices_cars. unfold Dict.keys. rewrite map_map.
  by apply map_ext.
Qed.

(** X9. A pass changes prices, histories and check times, nothing else:
    the dialog states, the users and their order, each user's city,
    filters and threshold, the URLs a user tracks and their order, and of
    each listing the title, the initial price, the site, the year, the
    mileage, the location and the date it was added are what they were. *)
Theorem pass_changes_prices_only (e : poll_env) (b : bot) :
  let b' := (monitor_prices e b).1.1 in
  user_states b' = user_states b
  ∧ Dict.keys (user_data b') = Dict.keys (user_data b)
  ∧ (∀ uid, city (record_of uid b') = city (record_of uid b)
            ∧ filters (record_of uid b') = filters (record_of uid b)
            ∧ price_threshold (record_of uid b')
              = price_threshold (record_of uid b)
            ∧ Dict.keys (cars_of uid b') = Dict.keys (cars_of uid b))
  ∧ (∀ uid url c, tracked b uid url c →
       ∃ c', tracked b' uid url c'
             ∧ title c' = title c ∧ initial_price c' = initial_price c
             ∧ site c' = site c ∧ year c' = year c ∧ mileage c' = mileage c
             ∧ location c' = location c ∧ added_date c' = added_date c).
Proof.
  intros b'. subst b'. split_and!.
  - by rewrite monitor_prices_total.
  - rewrite monitor_prices_total. unfold Dict.keys. simpl.
    rewrite map_map. by apply map_ext.
  - intros uid. rewrite !record_of_lookup. unfold cars_of.
    rewrite monitor_prices_get.
    destruct (Dict.get uid (user_data b)) as [u|]; simpl; [|done].
    apply user_after_fields.
  - intros uid url c Hc. apply tracked_cars_of in Hc.
    exists (listing_after e uid (threshold_of uid b) url c). split.
    + apply tracked_cars_of. rewrite monitor_prices_cars.
      rewrite (dict_get_map_values
                 (λ k v, listing_after e uid (threshold_of uid b) k v)).
      by rewrite Hc.
    + apply listing_after_fields.
Qed.

(** X10. A listing tracked at the price zero is never repriced: whatever
    the parser answers, its turn leaves price and history as they are and
    sends nothing; a fresh price other than zero is logged as an error. *)
Theorem zero_price_is_never_updated
    (e : poll_env) (uid : Z) (threshold : Q) (url : string) (c : car) :
  price c = 0 →
  price (listing_after e uid threshold url c) = 0
  ∧ price_history (listing_after e uid threshold url c) = price_history c
  ∧ (∀ ev, In ev (listing_log e uid threshold url c) →
           is_notification ev = false)
  ∧ (∀ nd, poll_fetch e uid url = Fetched nd → cd_price nd ≠ 0 →
           listing_log e uid threshold url c
           = [MonitorError url ZeroDivisionError]).
Proof.
  intros Hzero.
  unfold listing_after, listing_log, monitor_listing, check_listing.
  destruct (poll_fetch e uid url) as [| |nd]; simpl.
  - split_and!; [done|done| |done]. by intros ev [<-|[]].
  - split_and!; done.
  - rewrite Hzero.
    destruct (Z.eqb_spec 0 (cd_price nd)) as [Heq|Hne]; simpl.
    + split_and!; [done|done|done|]. intros nd' [= <-] Hnd. congruence.
    + split_and!; [done|done| |done]. by intros ev [<-|[]].
Qed.

(** X11. A snapshot is notified at most once: when a listing had its turn
    with some fresh data, a further turn with the same data sends
    nothing and leaves price and history as the first turn left them. *)
Theorem same_snapshot_is_not_notified_twice
    (e1 e2 : poll_env) (uid : Z) (threshold : Q) (url : string) (c : car)
    (nd : car_data) :
  poll_fetch e1 uid url = Fetched nd →
  poll_fetch e2 uid url = Fetched nd →
  let c1 := listing_after e1 uid threshold url c in
  price (listing_after e2 uid threshold url c1) = price c1
  ∧ price_history (listing_after e2 uid threshold url c1) = price_history c1
  ∧ (∀ ev, In ev (listing_log e2 uid threshold url c1) →
           is_notification ev = false).
Proof.
  intros Hf1 Hf2 c1. subst c1.
  unfold listing_after, listing_log, monitor_listing, check_listing.
  rewrite Hf1, Hf2.
  destruct (Z.eqb_spec (price c) (cd_price nd)) as [Heq|Hne]; simpl.
  { rewrite Heq, Z.eqb_refl. simpl. done. }
  destruct (Z.eqb_spec (price c) 0) as [Hzero|Hnz]; simpl.
  { destruct (Z.eqb_spec (price c) (cd_price nd)); [done|]. simpl.
    rewrite Hzero. simpl. split_and!; [done|done|]. by intros ev [<-|[]]. }
  destruct (change_percent _ _) as [percent|] eqn:Hpercent; simpl.
  - destruct (PyFloat.ge _ threshold) eqn:Hthr; simpl.
    + rewrite Z.eqb_refl. simpl. done.
    + destruct (Z.eqb_spec (price c) (cd_price nd)); [done|]. simpl.
      destruct (Z.eqb_spec (price c) 0); [done|].
      rewrite Hpercent, Hthr. done.
  - destruct (Z.eqb_spec (price c) (cd_price nd)); [done|]. simpl.
    destruct (Z.eqb_spec (price c) 0); [done|]. rewrite Hpercent. simpl.
    split_and!; [done|done|]. by intros ev [<-|[]].
Qed.

Lemma listing_log_short e uid threshold url c :
  (length (listing_log e uid threshold url c) ≤ 1)%nat.
Proof.
  unfold listing_log, monitor_listing, check_listing.
  destruct (poll_fetch e uid url) as [| |nd]; simpl; [lia|lia|].
  destruct (negb (price c =? cd_price nd)); simpl; [|lia].
  destruct (price c =? 0); simpl; [lia|].
  destruct (change_percent _ _) as [percent|]; simpl; [|lia].
  destruct (PyFloat.ge _ _); simpl; lia.
Qed.

Lemma user_log_short e uid u :
  (length (user_log e uid u) ≤ length (monitored_cars u))%nat.
Proof.
  unfold user_log. induction (monitored_cars u) as [|[url c] cars IH];
    simpl; [lia|].
  rewrite length_app.
  pose proof (listing_log_short e uid (price_threshold u) url c). lia.
Qed.

(** X12. A pass sends at most one notification and logs at most one line
    per tracked listing, between the line that opens the pass and the line
    that closes it, which every pass logs.  Over a store without listings
    a pass leaves the store as it was, sends nothing, and logs those two
    lines only. *)
Theorem pass_log_is_bounded (e : poll_env) (b : bot) :
  (length (monitor_prices e b).1.2 ≤ listings_total b)%nat
  ∧ (length (pass_log e b) ≤ listings_total b + 2)%nat
  ∧ head (pass_log e b) = Some PassStarted
  ∧ last (pass_log e b) = Some PassFinished
  ∧ (listings_total b = 0%nat →
     monitor_prices e b = (b, [], None)
     ∧ pass_log e b = [PassStarted; PassFinished]).
Proof.
  assert (Hshort : (length (monitor_prices e b).1.2 ≤ listings_total b)%nat).
  { rewrite monitor_prices_total. unfold listings_total. simpl.
    destruct b as [d st]. simpl.
    induction d as [|[uid u] d IH]; simpl; [lia|].
    rewrite length_app. pose proof (user_log_short e uid u). lia. }
  assert (Hidle : listings_total b = 0%nat →
                  monitor_prices e b = (b, [], None)).
  { clear Hshort. rewrite monitor_prices_total. unfold listings_total.
    destruct b as [d st]. simpl. intros Hzero.
    assert (Hd : map (λ kv, (kv.1, user_after e kv.1 kv.2)) d = d
                 ∧ concat (map (λ kv, user_log e kv.1 kv.2) d) = []).
    { induction d as [|[uid u] d IH]; simpl in *; [done|].
      destruct (monitored_cars u) as [|kc cars] eqn:Hcars; [|simpl in *; lia].
      destruct IH as [IH1 IH2]; [simpl in Hzero; lia|].
      rewrite IH1, IH2. unfold user_after, user_log. rewrite Hcars.
      simpl. split; [|done]. f_equal. f_equal.
      destruct u. simpl in *. by subst. }
    destruct Hd as [-> ->]. done. }
  assert (Hlog : pass_log e b
                 = PassStarted :: map About (monitor_prices e b).1.2
                   ++ [PassFinished]).
  { unfold pass_log. by rewrite monitor_prices_total. }
  split_and!; [done| |by rewrite Hlog|..].
  - rewrite Hlog. simpl. rewrite length_app, length_map. simpl. lia.
  - rewrite Hlog. change (PassStarted :: ?l ++ ?m) with ((PassStarted :: l) ++ m).
    apply last_snoc.
  - intros Hzero. split; [by apply Hidle|].
    rewrite Hlog, (Hidle Hzero). done.
Qed.

(** ** The footprint of a handler *)

Lemma dict_set_same {K V : Type} `{EqDecision K} (k : K) (v : V)
    (d : list (K * V)) :
  Dict.get k d = Some v → Dict.set k v d = d.
Proof.
  induction d as [|[k' v'] d IH]; simpl; [done|].
  destruct (decide (k' = k)) as [->|]; [by intros [= ->]|].
  intros H. by rewrite IH.
Qed.

Lemma with_user_data_same b : with_user_data (user_data b) b = b.
Proof. by destruct b. Qed.

(** Reading a record is assigning nothing into it. *)
Lemma get_user_data_as_update uid b :
  (get_user_data uid b).1 = update_user uid (λ u, u) b.
Proof.
  unfold update_user, get_user_data.
  destruct (Dict.get uid (user_data b)) as [u|] eqn:Hu; simpl.
  - by rewrite (dict_set_same uid u), with_user_data_same.
  - rewrite (dict_set_same uid default_user (Dict.set _ _ _));
      [done|apply dict_get_set_eq].
Qed.

Lemma update_user_get_other uid' uid f b :
  uid' ≠ uid →
  Dict.get uid' (user_data (update_user uid f b))
  = Dict.get uid' (user_data b).
Proof.
  intros Hne. unfold update_user, get_user_data.
  destruct (Dict.get uid (user_data b)); simpl;
    by rewrite !dict_get_set_ne.
Qed.

Lemma update_user_get_same uid f b :
  Dict.get uid (user_data (update_user uid f b)) = Some (f (record_of uid b)).
Proof.
  rewrite record_of_lookup. unfold update_user, get_user_data.
  destruct (Dict.get uid (user_data b)); simpl; by rewrite dict_get_set_eq.
Qed.

Lemma update_user_states uid f b :
  user_states (update_user uid f b) = user_states b.
Proof.
  unfold update_user, get_user_data.
  by destruct (Dict.get uid (user_data b)).
Qed.

Lemma touch_other uid' uid f s b :
  uid' ≠ uid →
  user_states (touch uid f s b) !! uid' = user_states b !! uid'
  ∧ Dict.get uid' (user_data (touch uid f s b))
    = Dict.get uid' (user_data b).
Proof.
  intros Hne. unfold touch.
  destruct f as [g|], s as [s'|]; simpl;
    rewrite ?lookup_insert_ne, ?update_user_states,
            ?update_user_get_other by done; done.
Qed.

Lemma touch_state uid f s b :
  state_of uid (touch uid f s b) = default (state_of uid b) s.
Proof.
  unfold touch. destruct s as [s'|]; simpl.
  - apply state_of_set_state.
  - destruct f as [g|]; [|done]. unfold state_of.
    by rewrite update_user_states.
Qed.

Lemma touch_get uid f s b :
  Dict.get uid (user_data (touch uid f s b))
  = match f with
    | Some g => Some (g (record_of uid b))
    | None => Dict.get uid (user_data b)
    end.
Proof.
  unfold touch.
  destruct f as [g|], s as [s'|]; simpl; by rewrite ?update_user_get_same.
Qed.

Lemma edit_none : edit (λ u, u).
Proof. by intros u. Qed.

Lemma edit_city c : edit (set_city c).
Proof. by intros u. Qed.

Lemma edit_cars cars : edit (λ u, set_monitored_cars (cars u) u).
Proof. by intros u. Qed.

Lemma edit_filters upd :
  (∀ f, bounds_ok f → bounds_ok (upd f)) →
  edit (λ u, set_filters (upd (filters u)) u).
Proof. intros Hupd u. split; [done|]. apply Hupd. Qed.

Lemma price_bound_stored n : price_bound_ok (positive_or_none n).
Proof.
  intros m. unfold positive_or_none.
  destruct (Z.gtb_spec n 0); [|done]. intros [= <-]. lia.
Qed.

Lemma year_bound_stored y current_year :
  year_rejected y current_year = false →
  year_bound_ok (positive_or_none y).
Proof.
  intros Hrej m. unfold positive_or_none.
  destruct (Z.gtb_spec y 0) as [Hpos|]; [|done]. intros [= <-].
  unfold year_rejected in Hrej.
  apply andb_false_iff in Hrej as [Hrej|Hrej].
  - apply negb_false_iff, Z.eqb_eq in Hrej. lia.
  - apply orb_false_iff in Hrej as [Hlo _]. by apply Z.ltb_ge in Hlo.
Qed.

Lemma footprint_state uid s b :
  s ≠ STATE_ADDING_URL → footprint uid b (set_state uid s b).
Proof.
  intros Hs. exists None, (Some s). split; [done|].
  split; [done|]. intros [= ->]. done.
Qed.

Lemma footprint_nothing uid b : footprint uid b b.
Proof. exists None, None. by split_and!. Qed.

Lemma footprint_read uid b : footprint uid b (get_user_data uid b).1.
Proof.
  exists (Some (λ u, u)), None. split_and!; [|by intros g [= <-]; split;
    [apply edit_none|left]|done].
  apply get_user_data_as_update.
Qed.

Lemma footprint_read_state uid s b :
  s ≠ STATE_ADDING_URL →
  footprint uid b (set_state uid s (get_user_data uid b).1).
Proof.
  intros Hs. exists (Some (λ u, u)), (Some s). split_and!.
  - unfold touch. by rewrite get_user_data_as_update.
  - intros g [= <-]. split; [apply edit_none|by left].
  - intros [= ->]. done.
Qed.

Lemma footprint_store_filter uid upd next reply k b :
  (∀ f, bounds_ok f → bounds_ok (upd f)) →
  next ≠ STATE_ADDING_URL →
  footprint uid b (after (store_filter uid upd next reply k b)).
Proof.
  intros Hupd Hnext.
  exists (Some (λ u, set_filters (upd (filters u)) u)), (Some next).
  split_and!; [done| |by intros [= ->]].
  intros g [= <-]. split; [by apply edit_filters|by left].
Qed.

Lemma handle_start_footprint uid b :
  raised (handle_start uid b) = None
  ∧ footprint uid b (after (handle_start uid b)).
Proof.
  unfold handle_start.
  pose proof (footprint_read_state uid STATE_MAIN_MENU b) as H.
  destruct (get_user_data uid b) as [b1 u]. simpl in *. split; [done|].
  by apply H.
Qed.

Lemma handle_add_url_footprint uid b :
  raised (handle_add_url uid b) = None
  ∧ footprint uid b (after (handle_add_url uid b)).
Proof.
  unfold handle_add_url.
  pose proof (footprint_read uid b) as Hread.
  pose proof (get_user_data_as_update uid b) as Hupd.
  assert (Hrec : (get_user_data uid b).2 = record_of uid b) by done.
  destruct (get_user_data uid b) as [b1 u]. simpl in *.
  destruct (truthy_str (city u)) eqn:Hcity; simpl; [|done].
  split; [done|]. exists (Some (λ u, u)), (Some STATE_ADDING_URL).
  split_and!.
  - unfold touch. by rewrite <- Hupd.
  - intros g [= <-]. split; [apply edit_none|by left].
  - intros _. split; [done|]. by rewrite <- Hrec.
Qed.

Lemma handle_list_cars_footprint uid b :
  footprint uid b (after (handle_list_cars uid b))
  ∧ (raised (handle_list_cars uid b) = None
     ∨ ∃ err, raised (handle_list_cars uid b) = Some err
              ∧ list_message (cars_of uid b) = inl err).
Proof.
  unfold handle_list_cars.
  pose proof (footprint_read uid b) as Hread.
  destruct (get_user_data uid b) as [b1 u] eqn:Hg.
  simpl in Hread. cbv beta iota.
  destruct (cars_of_get_user_data uid uid b b1 u Hg) as [_ Hcars].
  destruct (monitored_cars u) as [|kc cars] eqn:Hm; [by split; [|left]|].
  rewrite <- Hcars.
  destruct (list_message (kc :: cars)) as [err|message] eqn:Hr.
  - split; [done|]. right. by exists err.
  - destruct (_ <? _)%nat; split; auto.
Qed.

Lemma handle_filters_menu_footprint uid b :
  raised (handle_filters_menu uid b) = None
  ∧ footprint uid b (after (handle_filters_menu uid b)).
Proof.
  unfold handle_filters_menu.
  pose proof (footprint_read_state uid STATE_SETTING_FILTERS b) as H.
  destruct (get_user_data uid b) as [b1 u]. simpl in *. split; [done|].
  by apply H.
Qed.

Lemma handle_settings_footprint uid b :
  raised (handle_settings uid b) = None
  ∧ footprint uid b (after (handle_settings uid b)).
Proof.
  unfold handle_settings.
  pose proof (footprint_read uid b) as H.
  by destruct (get_user_data uid b) as [b1 u].
Qed.

Lemma handle_city_selected_footprint uid c b :
  raised (handle_city_selected uid c b) = None
  ∧ footprint uid b (after (handle_city_selected uid c b)).
Proof.
  unfold handle_city_selected.
  destruct (String.eqb c other_city_label); simpl.
  { split; [done|apply footprint_nothing]. }
  split; [done|]. exists (Some (set_city (Some c))), (Some STATE_MAIN_MENU).
  split_and!; [done| |done].
  intros g [= <-]. split; [apply edit_city|by right].
Qed.

Lemma main_menu_branch_footprint uid message b :
  footprint uid b (after (main_menu_branch uid message b))
  ∧ (raised (main_menu_branch uid message b) = None
     ∨ ∃ err, raised (main_menu_branch uid message b) = Some err
              ∧ list_message (cars_of uid b) = inl err
              ∧ message = list_cars_label).
Proof.
  unfold main_menu_branch.
  destruct (String.eqb message "🏙 Выбрать город").
  { split; [by apply footprint_state|by left]. }
  destruct (String.eqb message "➕ Добавить объявление").
  { destruct (handle_add_url_footprint uid b). auto. }
  destruct (String.eqb_spec message "📋 Мои объявления") as [->|_].
  { destruct (handle_list_cars_footprint uid b) as [? [?|(err & ? & ?)]];
      [auto|]. split; [done|]. right. by exists err. }
  destruct (String.eqb message "🔍 Фильтры").
  { destruct (handle_filters_menu_footprint uid b). auto. }
  destruct (String.eqb message "⚙️ Настройки").
  { destruct (handle_settings_footprint uid b). auto. }
  destruct (String.eqb message "❓ Помощь").
  { split; [apply footprint_nothing|by left]. }
  destruct (handle_start_footprint uid b). auto.
Qed.

Lemma filters_menu_branch_footprint uid message b :
  raised (filters_menu_branch uid message b) = None
  ∧ footprint uid b (after (filters_menu_branch uid message b)).
Proof.
  unfold filters_menu_branch.
  repeat (destruct (String.eqb message _);
          [split; [done|]; first
             [ by apply footprint_state
             | by apply footprint_store_filter ]|]).
  split; [done|apply footprint_nothing].
Qed.

Lemma handle_condition_selected_footprint uid label b :
  raised (handle_condition_selected uid label b) = None
  ∧ footprint uid b (after (handle_condition_selected uid label b)).
Proof.
  rewrite handle_condition_selected_label.
  destruct (condition_of_label label);
    [|split; [done|apply footprint_nothing]].
  split; [done|]. by apply footprint_store_filter.
Qed.

Lemma handle_documents_selected_footprint uid label b :
  raised (handle_documents_selected uid label b) = None
  ∧ footprint uid b (after (handle_documents_selected uid label b)).
Proof.
  rewrite handle_documents_selected_label.
  destruct (documents_of_label label);
    [|split; [done|apply footprint_nothing]].
  split; [done|]. by apply footprint_store_filter.
Qed.

Lemma handle_url_received_footprint e uid url b :
  footprint uid b (after (handle_url_received e uid url b))
  ∧ (raised (handle_url_received e uid url b) = None
     ∨ (after (handle_url_received e uid url b) = b
        ∧ ((raised (handle_url_received e uid url b) = Some ExternalError
            ∧ fetch_car_data e url = FetchRaises)
           ∨ (raised (handle_url_received e uid url b) = Some KeyError
              ∧ Dict.get uid (user_data b) = None)))).
Proof.
  unfold handle_url_received.
  destruct (has_site_marker url); simpl;
    [|split; [apply footprint_nothing|by left]].
  destruct (Dict.get uid (user_data b)) as [u|] eqn:Hu; simpl;
    [|split; [apply footprint_nothing|right; auto]].
  destruct (Dict.mem url (monitored_cars u)); simpl;
    [split; [by apply footprint_state|by left]|].
  destruct (fetch_car_data e url) as [| |cd] eqn:Hfetch; simpl;
    [split; [apply footprint_nothing|right; auto]
    |split; [apply footprint_nothing|by left]|].
  destruct (check_filters cd (filters u)); simpl;
    [|split; [apply footprint_nothing|by left]].
  split; [|by left].
  exists (Some (λ u, set_monitored_cars
                       (Dict.set url (new_car e cd) (monitored_cars u)) u)),
         (Some STATE_MAIN_MENU).
  split_and!; [|by intros g [= <-]; split;
    [apply (edit_cars (λ u, Dict.set url (new_car e cd) (monitored_cars u)))
    |right]|done].
  unfold touch, update_user, get_user_data. by rewrite Hu.
Qed.

Section Footprints.

Variable py_strip : string → string.
Variable py_lower : string → string.
Variable py_int : string → option Z.

Local Abbreviation handle := (handle_message py_strip py_lower py_int).
Local Abbreviation step := (step py_strip py_lower py_int).
Local Abbreviation reachable := (reachable py_strip py_lower py_int).

Lemma handle_price_min_footprint uid value b :
  raised (handle_price_min py_int uid value b) = None
  ∧ footprint uid b (after (handle_price_min py_int uid value b)).
Proof.
  unfold handle_price_min.
  destruct (parse_price py_int value) as [p|];
    [|split; [done|apply footprint_nothing]].
  destruct (p <? 0); [split; [done|apply footprint_nothing]|].
  split; [done|]. apply footprint_store_filter; [|done].
  intros f (? & ? & ? & ?). split_and!; try done. apply price_bound_stored.
Qed.

Lemma handle_price_max_footprint uid value b :
  raised (handle_price_max py_int uid value b) = None
  ∧ footprint uid b (after (handle_price_max py_int uid value b)).
Proof.
  unfold handle_price_max.
  destruct (parse_price py_int value) as [p|];
    [|split; [done|apply footprint_nothing]].
  destruct (p <? 0); [split; [done|apply footprint_nothing]|].
  split; [done|]. apply footprint_store_filter; [|done].
  intros f (? & ? & ? & ?). split_and!; try done. apply price_bound_stored.
Qed.

Lemma handle_year_min_footprint e uid value b :
  raised (handle_year_min py_int e uid value b) = None
  ∧ footprint uid b (after (handle_year_min py_int e uid value b)).
Proof.
  unfold handle_year_min.
  destruct (py_int value) as [y|];
    [|split; [done|apply footprint_nothing]].
  destruct (year_rejected y _) eqn:Hrej;
    [split; [done|apply footprint_nothing]|].
  split; [done|]. apply footprint_store_filter; [|done].
  intros f (? & ? & ? & ?). split_and!; try done.
  by eapply year_bound_stored.
Qed.

Lemma handle_year_max_footprint e uid value b :
  raised (handle_year_max py_int e uid value b) = None
  ∧ footprint uid b (after (handle_year_max py_int e uid value b)).
Proof.
  unfold handle_year_max.
  destruct (py_int value) as [y|];
    [|split; [done|apply footprint_nothing]].
  destruct (year_rejected y _) eqn:Hrej;
    [split; [done|apply footprint_nothing]|].
  split; [done|]. apply footprint_store_filter; [|done].
  intros f (? & ? & ? & ?). split_and!; try done.
  by eapply year_bound_stored.
Qed.

(** A message is handled within the footprint of its sender; an exception
    leaves the handler only from the parser, from a missing record while a
    URL is expected, or from the list of a user's listings. *)
Lemma handle_message_footprint e ev b :
  let uid := user_id ev in
  let o := handle e ev b in
  footprint uid b (after o)
  ∧ (raised o = None
     ∨ (state_of uid b = STATE_ADDING_URL ∧ after o = b
        ∧ ((raised o = Some ExternalError
            ∧ fetch_car_data e (py_strip (text_of ev)) = FetchRaises)
           ∨ (raised o = Some KeyError
              ∧ Dict.get uid (user_data b) = None)))
     ∨ ∃ err, raised o = Some err
              ∧ list_message (cars_of uid b) = inl err
              ∧ py_strip (text_of ev) = list_cars_label).
Proof.
  intros uid o. subst uid o. unfold handle_message.
  set (uid := user_id ev). set (message := py_strip (text_of ev)).
  destruct (String.eqb message back_label).
  { destruct (handle_start_footprint uid b). auto. }
  destruct (bool_decide (state_of uid b = STATE_MAIN_MENU)
            || is_start_word (py_lower message)).
  { destruct (main_menu_branch_footprint uid message b)
      as [? [?|(err & ? & ? & ?)]]; [auto|].
    split; [done|]. right; right. by exists err. }
  destruct (state_of uid b) eqn:Hs; simpl.
  - destruct (main_menu_branch_footprint uid message b)
      as [? [?|(err & ? & ? & ?)]]; [auto|].
    split; [done|]. right; right. by exists err.
  - destruct (handle_city_selected_footprint uid message b). auto.
  - destruct (handle_url_received_footprint e uid message b)
      as [? [?|(? & ?)]]; auto 6.
  - destruct (filters_menu_branch_footprint uid message b). auto.
  - destruct (handle_price_min_footprint uid message b). auto.
  - destruct (handle_price_max_footprint uid message b). auto.
  - destruct (handle_year_min_footprint e uid message b). auto.
  - destruct (handle_year_max_footprint e uid message b). auto.
  - destruct (handle_condition_selected_footprint uid message b). auto.
  - destruct (handle_documents_selected_footprint uid message b). auto.
Qed.

(** X13. A message of one user leaves every other user alone: the dialog
    state and the record of anyone but the sender are what they were,
    whatever the message, the state, the parser's answer, and whether or
    not an exception leaves the handler. *)
Theorem users_are_isolated (e : env) (ev : event) (b : bot) (uid' : Z) :
  uid' ≠ user_id ev →
  let o := handle e ev b in
  state_of uid' (after o) = state_of uid' b
  ∧ user_states (after o) !! uid' = user_states b !! uid'
  ∧ Dict.get uid' (user_data (after o)) = Dict.get uid' (user_data b)
  ∧ cars_of uid' (after o) = cars_of uid' b
  ∧ filters_of uid' (after o) = filters_of uid' b.
Proof.
  intros Hne o.
  destruct (handle_message_footprint e ev b) as [(f & s & Hshape & _) _].
  fold o in Hshape. rewrite Hshape.
  destruct (touch_other uid' (user_id ev) f s b Hne) as [Hst Hget].
  unfold state_of, cars_of. rewrite !filters_of_lookup, Hst, Hget. done.
Qed.

Lemma footprint_keeps_records uid b b' :
  footprint uid b b' → records_ok b → records_ok b'.
Proof.
  intros (f & s & -> & Hedit & _) Hok uid' u' Hu'.
  destruct (decide (uid' = uid)) as [->|Hne].
  - rewrite touch_get in Hu'. destruct f as [g|]; [|by apply (Hok uid)].
    injection Hu' as <-. destruct (Hedit g eq_refl) as [Hg _].
    destruct (Hg (record_of uid b)) as [-> Hb]. rewrite record_of_lookup in *.
    destruct (Dict.get uid (user_data b)) as [u|] eqn:Hu; simpl in *.
    + destruct (Hok uid u Hu). auto.
    + split; [done|]. apply Hb. by split_and!.
  - destruct (touch_other uid' uid f s b Hne) as [_ Hget].
    rewrite Hget in Hu'. by apply (Hok uid').
Qed.

Lemma footprint_keeps_adding uid b b' :
  footprint uid b b' → adding_ok b → adding_ok b'.
Proof.
  intros (f & s & -> & Hedit & Henter) Hok uid' Hstate.
  destruct (decide (uid' = uid)) as [->|Hne].
  - rewrite touch_state in Hstate. rewrite touch_get.
    destruct s as [s'|]; simpl in Hstate.
    + subst s'. destruct (Henter eq_refl) as [[g ->] Hcity].
      eexists. split; [done|].
      destruct (Hedit g eq_refl) as [_ [Hc|?]]; [|done]. by rewrite Hc.
    + destruct (Hok uid Hstate) as (u & Hu & Hcity).
      destruct f as [g|]; [|eauto]. eexists. split; [done|].
      destruct (Hedit g eq_refl) as [_ [Hc|?]]; [|done].
      by rewrite Hc, record_of_lookup, Hu.
  - destruct (touch_other uid' uid f s b Hne) as [Hst Hget].
    unfold state_of in Hstate. rewrite Hst in Hstate.
    rewrite Hget. by apply Hok.
Qed.

Lemma new_car_ok e cd : listing_ok (new_car e cd).
Proof. split; [by eexists|done]. Qed.

Lemma listing_after_zero e uid threshold url c :
  price c = 0 → price (listing_after e uid threshold url c) = 0.
Proof.
  intros Hzero. unfold listing_after, monitor_listing, check_listing.
  destruct (poll_fetch e uid url) as [| |nd]; simpl; [done|done|].
  rewrite Hzero. by destruct (0 =? cd_price nd).
Qed.

Lemma listing_after_ok e uid threshold url c :
  listing_ok c → listing_ok (listing_after e uid threshold url c).
Proof.
  intros [(h & Hhead & Hh) Hzero].
  destruct (listing_after_fields e uid threshold url c) as (_ & Hinit & _).
  destruct (listing_after_history e uid threshold url c) as [more Hmore].
  split.
  - exists h. rewrite Hmore, Hinit. split; [|done].
    destruct (price_history c); [done|]. done.
  - rewrite Hinit. intros H0. by apply listing_after_zero, Hzero.
Qed.

Lemma step_keeps_listings_ok b b' :
  step b b' → listings_ok b → listings_ok b'.
Proof.
  intros Hstep Hok uid url c' Hc'.
  destruct (Dict.get url (cars_of uid b)) as [c|] eqn:Hc.
  - apply tracked_cars_of in Hc. pose proof (Hok uid url c Hc) as Hcok.
    destruct Hstep as [e ev b|e b].
    + apply tracked_cars_of in Hc, Hc'.
      destruct (handle_message_cars py_strip py_lower py_int e ev b)
        as [Hsame|(cd & _ & _ & _ & Hfresh & _ & Hadd & Hother)].
      * rewrite Hsame in Hc'. congruence.
      * destruct (decide (uid = user_id ev)) as [->|Hne].
        -- rewrite Hadd, dict_get_set_ne in Hc'; [congruence|].
           intros ->. unfold Dict.mem in Hfresh. by rewrite Hc in Hfresh.
        -- rewrite Hother in Hc' by done. congruence.
    + apply tracked_cars_of in Hc, Hc'.
      rewrite monitor_prices_cars in Hc'.
      rewrite (dict_get_map_values
                 (λ k v, listing_after e uid (threshold_of uid b) k v)) in Hc'.
      rewrite Hc in Hc'. injection Hc' as <-. by apply listing_after_ok.
  - destruct (step_creates py_strip py_lower py_int b b' Hstep uid url c')
      as (e & cd & ->); [|done|apply new_car_ok].
    intros c Hc0. apply tracked_cars_of in Hc0. congruence.
Qed.

Lemma reachable_ok b :
  reachable b → records_ok b ∧ adding_ok b ∧ listings_ok b.
Proof.
  induction 1 as [|b b' _ (Hrec & Hadd & Hlist) Hstep].
  - split_and!.
    + by intros uid u Hu.
    + by intros uid Hs.
    + intros uid url c Hc. by apply tracked_cars_of in Hc.
  - split_and!; [| |by apply (step_keeps_listings_ok b b')].
    + destruct Hstep as [e ev b|e b].
      * destruct (handle_message_footprint e ev b) as [Hfoot _].
        by eapply footprint_keeps_records.
      * intros uid u' Hu'. rewrite monitor_prices_get in Hu'.
        destruct (Dict.get uid (user_data b)) as [u|] eqn:Hu; [|done].
        injection Hu' as <-.
        destruct (user_after_fields e uid u) as (_ & -> & -> & _).
        by apply (Hrec uid).
    + destruct Hstep as [e ev b|e b].
      * destruct (handle_message_footprint e ev b) as [Hfoot _].
        by eapply footprint_keeps_adding.
      * intros uid Hs. rewrite monitor_prices_get.
        assert (Hs' : state_of uid b = STATE_ADDING_URL).
        { by rewrite monitor_prices_total in Hs. }
        destruct (Hadd uid Hs') as (u & -> & Hcity). eexists. split; [done|].
        by destruct (user_after_fields e uid u) as (-> & _).
Qed.

(** X14. In every state the bot reaches, every record has the threshold 5,
    which no handler ever assigns, and every stored bound is in its
    domain: a price bound is [None] or positive, a year bound is [None] or
    at least 1900. *)
Theorem stored_records_stay_in_domain (b : bot) (uid : Z) (u : user) :
  reachable b →
  Dict.get uid (user_data b) = Some u →
  price_threshold u = 5%Q
  ∧ (∀ m, price_min (filters u) = Some m → 0 < m)
  ∧ (∀ m, price_max (filters u) = Some m → 0 < m)
  ∧ (∀ m, year_min (filters u) = Some m → 1900 ≤ m)
  ∧ (∀ m, year_max (filters u) = Some m → 1900 ≤ m).
Proof.
  intros Hb Hu. destruct (reachable_ok b Hb) as (Hrec & _ & _).
  destruct (Hrec uid u Hu) as (? & ? & ? & ? & ?). by split_and!.
Qed.

(** X15. In every state the bot reaches, the first entry of a listing's
    history carries its initial price, and a listing that was added at the
    price zero is still at the price zero. *)
Theorem listings_keep_their_start (b : bot) (uid : Z) (url : string) (c : car) :
  reachable b →
  tracked b uid url c →
  (∃ h, head (price_history c) = Some h ∧ h_price h = initial_price c)
  ∧ (initial_price c = 0 → price c = 0).
Proof.
  intros Hb Hc. destruct (reachable_ok b Hb) as (_ & _ & Hlist).
  exact (Hlist uid url c Hc).
Qed.

Lemma list_entry_error i url c err :
  (initial_price c = 0 → price c = 0) →
  list_entry i url c = inl err → err = OverflowError.
Proof.
  intros Hok. unfold list_entry.
  destruct (Z.eqb_spec (price c - initial_price c) 0) as [|Hne]; [done|].
  simpl negb. cbv iota.
  destruct (Z.eqb_spec (initial_price c) 0) as [H0|_].
  { specialize (Hok H0). lia. }
  destruct (PyFloat.true_div _ _); [done|]. by intros [= <-].
Qed.

Lemma list_entries_error i cars err :
  (∀ url c, In (url, c) cars → initial_price c = 0 → price c = 0) →
  list_entries i cars = inl err → err = OverflowError.
Proof.
  revert i. induction cars as [|[url c] cars IH]; intros i Hok; [done|].
  simpl. destruct (list_entry i url c) as [err'|lines] eqn:Hentry.
  - intros [= <-]. eapply list_entry_error; [|exact Hentry].
    apply (Hok url). by left.
  - destruct (list_entries (S i) cars) as [err'|more] eqn:Hrest; [|done].
    intros [= <-]. eapply IH; [|exact Hrest].
    intros url' c' Hin. apply (Hok url'). by right.
Qed.

Lemma list_message_error cars err :
  (∀ url c, In (url, c) cars → initial_price c = 0 → price c = 0) →
  list_message cars = inl err → err = OverflowError.
Proof.
  intros Hok. unfold list_message.
  destruct (list_entries 1 cars) as [err'|lines] eqn:Hentries; [|done].
  intros [= <-]. by eapply list_entries_error.
Qed.

(** ** The parts of a long text *)

Lemma split_chars_append n s :
  String.append (split_chars n s).1 (split_chars n s).2 = s.
Proof.
  revert n. induction s as [|a s IH]; intros n; [done|].
  cbn [split_chars]. destruct (is_continuation a).
  - specialize (IH n). destruct (split_chars n s) as [h t].
    cbn [fst snd] in *. by rewrite <- IH.
  - destruct n as [|n]; [done|].
    specialize (IH n). destruct (split_chars n s) as [h t].
    cbn [fst snd] in *. by rewrite <- IH.
Qed.

Lemma split_chars_head n s : (py_len (split_chars n s).1 ≤ n)%nat.
Proof.
  revert n. induction s as [|a s IH]; intros n; cbn [split_chars];
    [simpl; lia|].
  destruct (is_continuation a) eqn:Ha.
  - specialize (IH n). destruct (split_chars n s) as [h t].
    cbn [fst snd py_len] in *. by rewrite Ha.
  - destruct n as [|n]; [simpl; lia|].
    specialize (IH n). destruct (split_chars n s) as [h t].
    cbn [fst snd py_len] in *. rewrite Ha. lia.
Qed.

Lemma split_chars_tail n s :
  (String.length (split_chars n s).2 ≤ String.length s)%nat.
Proof.
  revert n. induction s as [|a s IH]; intros n; cbn [split_chars];
    [simpl; lia|].
  destruct (is_continuation a).
  - specialize (IH n). destruct (split_chars n s) as [h t].
    cbn [fst snd String.length] in *. lia.
  - destruct n as [|n]; [simpl; lia|].
    specialize (IH n). destruct (split_chars n s) as [h t].
    cbn [fst snd String.length] in *. lia.
Qed.

Lemma split_chars_shorter n a s :
  (0 < n)%nat →
  (String.length (split_chars n (String a s)).2 ≤ String.length s)%nat.
Proof.
  intros Hn. cbn [split_chars]. destruct (is_continuation a).
  - pose proof (split_chars_tail n s).
    by destruct (split_chars n s) as [h t].
  - destruct n as [|n]; [lia|]. pose proof (split_chars_tail n s).
    by destruct (split_chars n s) as [h t].
Qed.

Lemma string_append_empty (s : string) : String.append s "" = s.
Proof.
  induction s as [|a s IH]; [done|].
  change (String a s +:+ "") with (String a (s +:+ "")). by rewrite IH.
Qed.

Lemma string_concat_cons (h : string) (l : list string) :
  String.concat "" (h :: l) = String.append h (String.concat "" l).
Proof.
  destruct l as [|h' l]; [|done]. cbn [String.concat].
  by rewrite string_append_empty.
Qed.

Lemma chunks_concat fuel size s :
  (0 < size)%nat → (String.length s ≤ fuel)%nat →
  String.concat "" (chunks fuel size s) = s.
Proof.
  intros Hsize. revert s. induction fuel as [|fuel IH]; intros s Hfuel.
  - destruct s; [done|]. simpl in Hfuel. lia.
  - destruct s as [|a s]; [done|].
    cbn [chunks].
    pose proof (split_chars_append size (String a s)) as Happ.
    pose proof (split_chars_shorter size a s Hsize) as Hshort.
    destruct (split_chars size (String a s)) as [h t].
    cbn [fst snd] in *.
    rewrite string_concat_cons, IH; [done|]. simpl in Hfuel. lia.
Qed.

Lemma chunks_sizes fuel size s :
  Forall (λ part, (py_len part ≤ size)%nat) (chunks fuel size s).
Proof.
  revert s. induction fuel as [|fuel IH]; intros s; [constructor|].
  destruct s as [|a s]; [constructor|].
  cbn [chunks].
  pose proof (split_chars_head size (String a s)) as Hhead.
  destruct (split_chars size (String a s)) as [h t]. by constructor.
Qed.

Lemma send_parts_bodies uid parts :
  map body (send_parts uid parts) = map CarList parts.
Proof.
  induction parts as [|part [|part' parts] IH]; [done|done|].
  change (send_parts uid (part :: part' :: parts))
    with (send uid (CarList part) NoKeyboard
          :: send_parts uid (part' :: parts)).
  rewrite map_cons, IH. done.
Qed.

Lemma send_parts_keyboards uid parts :
  parts ≠ [] →
  map kb (send_parts uid parts)
  = replicate (length parts - 1) NoKeyboard ++ [MainMenuKeyboard].
Proof.
  induction parts as [|part [|part' parts] IH]; [done|done|]. intros _.
  change (send_parts uid (part :: part' :: parts))
    with (send uid (CarList part) NoKeyboard
          :: send_parts uid (part' :: parts)).
  rewrite map_cons, IH by done. simpl. by rewrite Nat.sub_0_r.
Qed.

(** A text of more than 4096 characters has at least two parts. *)
Lemma long_text_parts message parts :
  (4096 < py_len message)%nat →
  String.concat "" parts = message →
  Forall (λ part, (py_len part ≤ 4000)%nat) parts →
  (2 ≤ length parts)%nat.
Proof.
  intros Hlong Hconcat Hsizes.
  destruct parts as [|part [|part' parts]]; simpl; [| |lia].
  - subst message. simpl in Hlong. lia.
  - simpl in Hconcat. subst message. apply Forall_inv in Hsizes. lia.
Qed.

End Footprints.

(** ** Runs: exceptions, the list of listings, adding twice *)

Lemma dict_get_None_keys {K V : Type} `{EqDecision K} (k : K)
    (d : list (K * V)) :
  Dict.get k d = None → k ∉ Dict.keys d.
Proof.
  induction d as [|[k' v'] d IH]; simpl; [intros _; apply not_elem_of_nil|].
  destruct (decide (k' = k)); [done|]. intros H.
  apply not_elem_of_cons. split; [done|]. by apply IH.
Qed.

Lemma dict_In_get_unique {K V : Type} `{EqDecision K} (k : K) (v : V)
    (d : list (K * V)) :
  NoDup (Dict.keys d) → In (k, v) d → Dict.get k d = Some v.
Proof.
  induction d as [|[k' v'] d IH]; simpl; [done|].
  intros Hnd [[= -> ->]|Hin].
  - by rewrite decide_True.
  - apply NoDup_cons in Hnd as [Hk' Hnd].
    destruct (decide (k' = k)) as [->|]; [|by apply IH].
    destruct Hk'. apply list_elem_of_In. unfold Dict.keys.
    apply in_map_iff. by exists (k, v).
Qed.

Section Runs2.

Variable py_strip : string → string.
Variable py_lower : string → string.
Variable py_int : string → option Z.

Local Abbreviation handle := (handle_message py_strip py_lower py_int).
Local Abbreviation step := (step py_strip py_lower py_int).
Local Abbreviation reachable := (reachable py_strip py_lower py_int).

Lemma reachable_urls_unique b : reachable b → urls_unique b.
Proof.
  induction 1 as [|b b' _ IH Hstep]; intros uid.
  - apply NoDup_nil_2.
  - destruct Hstep as [e ev b|e b].
    + destruct (handle_message_cars py_strip py_lower py_int e ev b)
        as [Hsame|(cd & _ & _ & _ & Hfresh & _ & Hadd & Hother)].
      * rewrite Hsame. apply IH.
      * destruct (decide (uid = user_id ev)) as [->|Hne];
          [|rewrite Hother by done; apply IH].
        assert (Hnone : Dict.get (py_strip (text_of ev))
                          (cars_of (user_id ev) b) = None).
        { unfold Dict.mem in Hfresh. by destruct (Dict.get _ _). }
        rewrite Hadd, dict_set_fresh by done.
        unfold Dict.keys. rewrite map_app. simpl.
        apply NoDup_app. split_and!; [apply IH| |apply NoDup_singleton].
        intros k Hk Hk'. apply list_elem_of_singleton in Hk'. subst k.
        by apply (dict_get_None_keys _ _ Hnone).
    + destruct (pass_keeps_urls_and_states e b uid) as [-> _]. apply IH.
Qed.

Lemma reachable_list_error b uid err :
  reachable b →
  list_message (cars_of uid b) = inl err → err = OverflowError.
Proof.
  intros Hb. destruct (reachable_ok py_strip py_lower py_int b Hb)
    as (_ & _ & Hlist).
  apply list_message_error. intros url c Hin.
  apply (Hlist uid url c), tracked_cars_of.
  apply dict_In_get_unique; [by apply reachable_urls_unique|done].
Qed.

(** X16. In every state the bot reaches, an exception leaves
    [handle_message] in two cases only.  The parser raises while a URL is
    being added: the bot is then as it was before the message.  Or the
    list of listings is asked for and a percentage in it is beyond the
    range of [float]: [OverflowError].  Neither the lookup of the user's
    record nor a division by zero raise. *)
Theorem what_a_message_raises (e : env) (ev : event) (b : bot) (err : exn) :
  reachable b →
  raised (handle e ev b) = Some err →
  (err = ExternalError
   ∧ state_of (user_id ev) b = STATE_ADDING_URL
   ∧ fetch_car_data e (py_strip (text_of ev)) = FetchRaises
   ∧ after (handle e ev b) = b)
  ∨ (err = OverflowError
     ∧ py_strip (text_of ev) = list_cars_label
     ∧ list_message (cars_of (user_id ev) b) = inl OverflowError).
Proof.
  intros Hb Herr.
  destruct (reachable_ok py_strip py_lower py_int b Hb) as (_ & Hadd & _).
  destruct (handle_message_footprint py_strip py_lower py_int e ev b)
    as [_ [Hnone|[(Hs & Hafter & [[Hr Hf]|[Hr Hu]])
                 |(err' & Hr & Hlist & Hmsg)]]].
  - congruence.
  - left. split_and!; [congruence|done|done|done].
  - destruct (Hadd (user_id ev) Hs) as (u & Hu' & _). congruence.
  - assert (err' = OverflowError) by by eapply reachable_list_error.
    subst err'. right. split_and!; [congruence|done|done].
Qed.

(** X17. In every state the bot reaches, the button that lists the
    listings is answered at the main menu as follows.  Without listings:
    the hint that there are none.  With listings, in the order in which
    they were added: a text of at most 4096 characters goes out in one
    message with the main menu keyboard; a longer one goes out in at least
    two parts of at most 4000 characters, which together are the text, the
    last one with the keyboard and the others without.  The one exception
    that can leave is [OverflowError], for a percentage beyond the range
    of [float]; nothing is sent then.  The dialog stays at the main menu
    and no listing changes. *)
Theorem listings_are_shown (e : env) (ev : event) (b : bot) :
  reachable b →
  py_strip (text_of ev) = list_cars_label →
  state_of (user_id ev) b = STATE_MAIN_MENU →
  let uid := user_id ev in
  let o := handle e ev b in
  state_of uid (after o) = STATE_MAIN_MENU
  ∧ (∀ uid', cars_of uid' (after o) = cars_of uid' b)
  ∧ (cars_of uid b = [] →
     raised o = None ∧ sent o = [send uid NoCars MainMenuKeyboard])
  ∧ (cars_of uid b ≠ [] →
     match list_message (cars_of uid b) with
     | inl err =>
         err = OverflowError ∧ raised o = Some OverflowError ∧ sent o = []
     | inr message =>
         raised o = None
         ∧ if (4096 <? py_len message)%nat then
             ∃ parts,
               sent o = send_parts uid parts
               ∧ parts = parts_of 4000 message
               ∧ String.concat "" parts = message
               ∧ Forall (λ part, (py_len part ≤ 4000)%nat) parts
               ∧ (2 ≤ length parts)%nat
               ∧ map body (sent o) = map CarList parts
               ∧ map kb (sent o)
                 = replicate (length parts - 1) NoKeyboard
                   ++ [MainMenuKeyboard]
           else sent o = [send uid (CarList message) MainMenuKeyboard]
     end).
Proof.
  intros Hb Hmsg Hstate uid o. subst uid.
  assert (Ho : o = handle_list_cars (user_id ev) b).
  { subst o. unfold handle_message. by rewrite Hmsg, Hstate. }
  rewrite Ho.
  pose proof (reachable_list_error b (user_id ev)) as Hlist.
  pose proof (same_cars_handle_list_cars (user_id ev) b) as Hsame.
  pose proof (state_of_get_user_data (user_id ev) (user_id ev) b) as Hs.
  unfold handle_list_cars in *.
  destruct (get_user_data (user_id ev) b) as [b1 u] eqn:Hg.
  destruct (cars_of_get_user_data (user_id ev) (user_id ev) b b1 u Hg)
    as [_ Hcars].
  rewrite <- Hcars in *. simpl in Hs.
  destruct (monitored_cars u) as [|kc cars].
  { split_and!; [simpl; congruence|done|done|done]. }
  destruct (list_message (kc :: cars)) as [err|message] eqn:Hm.
  { split_and!; [simpl; congruence|done|done|].
    intros _. by rewrite (Hlist err Hb eq_refl). }
  destruct (4096 <? py_len message)%nat eqn:Hlong.
  - split_and!; [simpl; congruence|done|done|]. intros _. split; [done|].
    apply Nat.ltb_lt in Hlong.
    assert (Hconcat : String.concat "" (parts_of 4000 message) = message)
      by (apply chunks_concat; lia).
    pose proof (chunks_sizes (String.length message) 4000 message) as Hsizes.
    pose proof (long_text_parts message _ Hlong Hconcat Hsizes) as Hmany.
    exists (parts_of 4000 message). simpl sent.
    split_and!; [done|done|done|done|done|apply send_parts_bodies|].
    apply send_parts_keyboards.
    destruct (parts_of 4000 message); [simpl in Hmany; lia|done].
  - split_and!; [simpl; congruence|done|done|done].
Qed.

(** X18. A listing that was just added is a duplicate from then on: when a
    URL was added, the user opens the URL dialog again and sends the same
    URL, the answer is that the listing is already there, and the store
    is as the first addition left it. *)
Theorem added_url_is_a_duplicate_afterwards
    (e1 e2 e3 : env) (ev ev2 : event) (b : bot) :
  reachable b →
  let uid := user_id ev in
  let url := py_strip (text_of ev) in
  let o1 := handle e1 ev b in
  Dict.mem url (cars_of uid b) = false →
  Dict.mem url (cars_of uid (after o1)) = true →
  user_id ev2 = uid →
  py_strip (text_of ev2) = add_url_label →
  let o2 := handle e2 ev2 (after o1) in
  let o3 := handle e3 ev (after o2) in
  state_of uid (after o1) = STATE_MAIN_MENU
  ∧ state_of uid (after o2) = STATE_ADDING_URL
  ∧ o3 = returns (set_state uid STATE_MAIN_MENU (after o2))
                 [send uid AlreadyAdded MainMenuKeyboard]
  ∧ user_data (after o3) = user_data (after o1).
Proof.
  intros Hb uid url o1 Hnew Hadded Hev2 Hmsg2 o2 o3.
  subst o3 o2 o1 url uid.
  set (uid := user_id ev) in *. set (url := py_strip (text_of ev)) in *.
  destruct (reachable_ok py_strip py_lower py_int b Hb) as (_ & Hadd & _).
  destruct (handle_message_cars py_strip py_lower py_int e1 ev b)
    as [Hsame|(cd & Hstate & Hplain & Hmark & _ & Hfetch & _)].
  { fold uid in Hsame. rewrite Hsame in Hadded. congruence. }
  fold uid url in Hstate, Hplain, Hmark, Hfetch.
  destruct (Hadd uid Hstate) as (u & Hu & Hcity).
  assert (Hmem : Dict.mem url (monitored_cars u) = false).
  { unfold cars_of in Hnew. by rewrite Hu in Hnew. }
  assert (Hrun : handle e1 ev b = handle_url_received e1 uid url b).
  { rewrite plain_message_dispatch by (done || by fold uid; rewrite Hstate).
    fold uid url. by rewrite Hstate. }
  rewrite Hrun in *. clear Hrun. unfold handle_url_received in *.
  rewrite Hmark, Hu, Hmem, Hfetch in *. simpl in Hadded |- *.
  destruct (check_filters cd (filters u)); simpl in Hadded |- *;
    [|congruence].
  set (u1 := set_monitored_cars
               (Dict.set url (new_car e1 cd) (monitored_cars u)) u) in *.
  set (b1 := set_state uid STATE_MAIN_MENU
               (with_user_data (Dict.set uid u1 (user_data b)) b)) in *.
  assert (Hu1 : Dict.get uid (user_data b1) = Some u1).
  { subst b1. simpl. apply dict_get_set_eq. }
  assert (Hs1 : state_of uid b1 = STATE_MAIN_MENU)
    by apply state_of_set_state.
  assert (Ho2 : handle e2 ev2 b1
                = returns (set_state uid STATE_ADDING_URL b1)
                    [send uid SendUrlPrompt BackKeyboard]).
  { unfold handle_message. rewrite Hmsg2, Hev2. fold uid. rewrite Hs1.
    change (String.eqb add_url_label back_label) with false. cbv iota.
    rewrite bool_decide_eq_true_2 by done. simpl orb. cbv iota.
    change (main_menu_branch uid add_url_label b1)
      with (handle_add_url uid b1).
    unfold handle_add_url, get_user_data. rewrite Hu1.
    assert (Hc1 : city u1 = city u) by done. by rewrite Hc1, Hcity. }
  rewrite Ho2. simpl.
  split; [done|]. split; [apply state_of_set_state|].
  assert (Ho3 : handle e3 ev (set_state uid STATE_ADDING_URL b1)
                = returns
                    (set_state uid STATE_MAIN_MENU
                       (set_state uid STATE_ADDING_URL b1))
                    [send uid AlreadyAdded MainMenuKeyboard]).
  { rewrite plain_message_dispatch;
      [|done|fold uid; by rewrite state_of_set_state].
    fold uid url. rewrite state_of_set_state. simpl.
    unfold handle_url_received. rewrite Hmark. simpl.
    rewrite dict_get_set_eq. unfold u1 at 1. simpl. unfold Dict.mem.
    by rewrite dict_get_set_eq. }
  by rewrite Ho3.
Qed.

End Runs2.

(** ** The further properties at work *)

Section Scenario2Facts.
Import Scenario Scenario2.

Lemma inverted_price_range_rejects_everything_witness :
  price_min (filters_of 1 inverted_range) = Some 300000
  ∧ price_max (filters_of 1 inverted_range) = Some 100000
  ∧ check_filters (kia 200000) (filters_of 1 inverted_range) = false.
Proof.
  split; [reflexivity|]. split; [reflexivity|].
  apply (inverted_price_range_rejects_everything (kia 200000)
           (filters_of 1 inverted_range) 300000 100000);
    reflexivity.
Defined.



Lemma adding_requires_city_witness :
  state_of 1 initial_bot = STATE_MAIN_MENU
  ∧ (let o := PyModel.handle offline (say add_url_label) initial_bot in
     state_of 1 (after o) = STATE_MAIN_MENU
     ∧ sent o = [send 1 NeedCityFirst MainMenuKeyboard]).
Proof.
  split; [reflexivity|].
  destruct (adding_requires_city PyModel.strip PyModel.lower PyModel.int
              offline (say add_url_label) initial_bot)
    as (_ & _ & Hcity); [reflexivity|reflexivity|].
  exact Hcity.
Defined.



Lemma pass_changes_prices_only_witness :
  user_states (monitor_prices (poll (kia 900000)) (tracking 1000000)).1.1
  = user_states (tracking 1000000).
Proof.
  destruct (pass_changes_prices_only (poll (kia 900000)) (tracking 1000000))
    as (Hstates & _).
  exact Hstates.
Defined.

Lemma zero_price_is_never_updated_witness :
  price (kia_car 0) = 0
  ∧ price (listing_after (poll (kia 100)) 1 5 kia_url (kia_car 0)) = 0
  ∧ listing_log (poll (kia 100)) 1 5 kia_url (kia_car 0)
    = [MonitorError kia_url ZeroDivisionError].
Proof.
  split; [reflexivity|].
  destruct (zero_price_is_never_updated (poll (kia 100)) 1 5 kia_url
              (kia_car 0) eq_refl) as (Hprice & _ & _ & Hlog).
  split; [exact Hprice|]. apply (Hlog (kia 100)); [reflexivity|discriminate].
Defined.

Lemma same_snapshot_is_not_notified_twice_witness :
  price (listing_after (poll (kia 900000)) 1 5 kia_url (kia_car 1000000))
  = 900000
  ∧ price (listing_after (poll (kia 900000)) 1 5 kia_url
             (listing_after (poll (kia 900000)) 1 5 kia_url
                (kia_car 1000000)))
    = price (listing_after (poll (kia 900000)) 1 5 kia_url
               (kia_car 1000000)).
Proof.
  split; [reflexivity|].
  destruct (same_snapshot_is_not_notified_twice (poll (kia 900000))
              (poll (kia 900000)) 1 5 kia_url (kia_car 1000000)
              (kia 900000) eq_refl eq_refl) as (Hprice & _).
  exact Hprice.
Defined.

Lemma pass_log_is_bounded_witness :
  listings_total with_city = 0%nat
  ∧ monitor_prices (poll (kia 900000)) with_city = (with_city, [], None)
  ∧ pass_log (poll (kia 900000)) with_city = [PassStarted; PassFinished].
Proof.
  split; [reflexivity|].
  destruct (pass_log_is_bounded (poll (kia 900000)) with_city)
    as (_ & _ & _ & _ & Hidle).
  apply Hidle. reflexivity.
Defined.

Lemma users_are_isolated_witness :
  state_of 2 (after (PyModel.handle offline (say "« Назад")
                       (tracking 1000000)))
  = state_of 2 (tracking 1000000).
Proof.
  destruct (users_are_isolated PyModel.strip PyModel.lower PyModel.int
              offline (say "« Назад") (tracking 1000000) 2)
    as (Hstate & _); [discriminate|].
  exact Hstate.
Defined.

Lemma stored_records_stay_in_domain_witness :
  Dict.get 1 (user_data (tracking 1000000)) = Some tracking_record
  ∧ price_threshold tracking_record = 5%Q.
Proof.
  split; [reflexivity|].
  destruct (stored_records_stay_in_domain PyModel.strip PyModel.lower
              PyModel.int (tracking 1000000) 1 tracking_record
              (tracking_reachable 1000000) eq_refl) as (Hthr & _).
  exact Hthr.
Defined.

Lemma listings_keep_their_start_witness :
  ∃ h, head (price_history (kia_car 1000000)) = Some h
       ∧ h_price h = initial_price (kia_car 1000000).
Proof.
  destruct (listings_keep_their_start PyModel.strip PyModel.lower
              PyModel.int (tracking 1000000) 1 kia_url (kia_car 1000000)
              (tracking_reachable 1000000) (tracking_tracks 1000000))
    as [Hhead _].
  exact Hhead.
Defined.

Lemma adding_url_reachable :
  reachable PyModel.strip PyModel.lower PyModel.int adding_url.
Proof. repeat apply dialog_reachable. apply reach_init. Qed.

Lemma what_a_message_raises_witness :
  raised (PyModel.handle broken (say kia_url) adding_url)
  = Some ExternalError
  ∧ after (PyModel.handle broken (say kia_url) adding_url) = adding_url.
Proof.
  split; [reflexivity|].
  destruct (what_a_message_raises PyModel.strip PyModel.lower PyModel.int
              broken (say kia_url) adding_url ExternalError
              adding_url_reachable eq_refl)
    as [(_ & _ & _ & Hafter)|(Herr & _)]; [exact Hafter|discriminate Herr].
Defined.

Lemma repriced_beyond_float_reachable :
  reachable PyModel.strip PyModel.lower PyModel.int repriced_beyond_float.
Proof.
  unfold repriced_beyond_float.
  eapply reach_step; [|apply step_poll].
  eapply reach_step; [|apply step_poll].
  apply dialog_reachable, adding_url_reachable.
Qed.

(** The second case of X16 occurs: a listing added at the price 1 and
    repriced by two passes to [10 ^ 600] is tracked in a state the bot
    reaches, and there the list of listings raises [OverflowError]. *)
Lemma list_of_listings_overflows :
  reachable PyModel.strip PyModel.lower PyModel.int repriced_beyond_float
  ∧ state_of 1 repriced_beyond_float = STATE_MAIN_MENU
  ∧ (∃ c, cars_of 1 repriced_beyond_float = [(kia_url, c)]
          ∧ initial_price c = 1 ∧ price c = 10 ^ 600)
  ∧ PyModel.handle offline (say list_cars_label) repriced_beyond_float
    = raises OverflowError repriced_beyond_float [].
Proof.
  split; [apply repriced_beyond_float_reachable|].
  split; [by vm_compute|]. split; [|by vm_compute].
  eexists. split; [by vm_compute|]. by vm_compute.
Qed.

Lemma at_menu_with_listing_reachable :
  reachable PyModel.strip PyModel.lower PyModel.int at_menu_with_listing.
Proof. repeat apply dialog_reachable. apply reach_init. Qed.

Lemma listings_are_shown_witness :
  let message :=
    String.concat ""
      ["📋 Ваши объявления:"; nl; nl;
       "1. Kia Rio"; nl;
       "   💰 1,000,000 ₽"; nl;
       "   🌐 auto.ru"; nl;
       "   📍 Москва"; nl;
       "   🔗 "; kia_url; nl; nl] in
  state_of 1 at_menu_with_listing = STATE_MAIN_MENU
  ∧ list_message (cars_of 1 at_menu_with_listing) = inr message
  ∧ (4096 <? py_len message)%nat = false
  ∧ sent (PyModel.handle offline (say list_cars_label) at_menu_with_listing)
    = [send 1 (CarList message) MainMenuKeyboard].
Proof.
  intros message.
  assert (Hm : list_message (cars_of 1 at_menu_with_listing) = inr message)
    by reflexivity.
  assert (Hshort : (4096 <? py_len message)%nat = false) by reflexivity.
  split; [reflexivity|]. split; [exact Hm|]. split; [exact Hshort|].
  destruct (listings_are_shown PyModel.strip PyModel.lower PyModel.int
              offline (say list_cars_label) at_menu_with_listing
              at_menu_with_listing_reachable eq_refl eq_refl)
    as (_ & _ & _ & Hsent).
  assert (Hcars : cars_of 1 at_menu_with_listing ≠ []) by discriminate.
  specialize (Hsent Hcars).
  change (user_id (say list_cars_label)) with 1 in Hsent.
  rewrite Hm, Hshort in Hsent. exact (proj2 Hsent).
Defined.

(** The long case of X17 at work: a listing with a title of 4500
    characters makes a text of 4611 characters, which goes out in two
    parts of 4000 and 611 characters, the first one without keyboard. *)
Lemma long_list_goes_out_in_parts :
  let o := PyModel.handle offline (say list_cars_label)
             at_menu_with_long_listing in
  state_of 1 at_menu_with_long_listing = STATE_MAIN_MENU
  ∧ match list_message (cars_of 1 at_menu_with_long_listing) with
    | inr message => py_len message = 4611%nat
    | inl _ => False
    end
  ∧ raised o = None
  ∧ map kb (sent o) = [NoKeyboard; MainMenuKeyboard]
  ∧ map (λ m, match body m with CarList part => py_len part | _ => 0%nat end)
        (sent o)
    = [4000%nat; 611%nat].
Proof. by vm_compute. Qed.

Lemma added_url_is_a_duplicate_afterwards_witness :
  let o1 := PyModel.handle (world (kia 1000000)) (say kia_url) adding_url in
  let o2 := PyModel.handle offline (say add_url_label) (after o1) in
  let o3 := PyModel.handle (world (kia 900000)) (say kia_url) (after o2) in
  Dict.mem kia_url (cars_of 1 adding_url) = false
  ∧ Dict.mem kia_url (cars_of 1 (after o1)) = true
  ∧ sent o3 = [send 1 AlreadyAdded MainMenuKeyboard]
  ∧ user_data (after o3) = user_data (after o1).
Proof.
  intros o1 o2 o3. split; [reflexivity|]. split; [reflexivity|].
  destruct (added_url_is_a_duplicate_afterwards PyModel.strip PyModel.lower
              PyModel.int (world (kia 1000000)) offline (world (kia 900000))
              (say kia_url) (say add_url_label) adding_url
              adding_url_reachable eq_refl eq_refl eq_refl eq_refl)
    as (_ & _ & Ho3 & Hdata).
  split; [|exact Hdata]. subst o3 o2 o1. unfold PyModel.handle.
  rewrite Ho3. reflexivity.
Defined.

End Scenario2Facts.

(** ** Texts no menu knows *)



Section Menus.

Variable py_strip : string → string.
Variable py_lower : string → string.
Variable py_int : string → option Z.

Local Abbreviation handle := (handle_message py_strip py_lower py_int).


End Menus.

Section Scenario3Facts.
Import Scenario Scenario2.


End Scenario3Facts.
